(** * mvplayer: the per-slot playback controller

    A shallow embedding of [PlayerWindow], [ControlPanel] and [MainWindow]
    of the multi video player, in the revision of [mvplayer.pyw] whose
    methods are named [..._action].  The Python attributes of a [PlayerWindow]
    are a record; the Qt widgets it drives are property stores (a setter
    stores the requested value, a getter reads it back) with what the
    source sets up on them: the window keeps its size at or above the
    minimum size of [create_ui], the sliders bound a value to their range
    and emit the signals [create_ui] connects ([valueChanged] of the
    volume slider; [sliderMoved] of the position slider while its handle
    is held).  The native vlc player is an abstract interface, [Engine],
    whose answers the code only observes.  Every call that leaves the
    Python code is appended to a call log, so that the order of the calls
    can be stated.

    Methods are written in a state-and-exception monad, one monadic
    statement per Python statement. *)

From Stdlib Require Import ZArith List String Bool Lia.
From Stdlib Require Import PrimFloat FloatOps SpecFloat Uint63.
Import ListNotations.

Open Scope string_scope.
Open Scope list_scope.
Open Scope Z_scope.

(** ** Values *)

Record QRect := mkRect
  { rect_x : Z; rect_y : Z; rect_width : Z; rect_height : Z }.

Record QMargins := mkMargins
  { left : Z; top : Z; right : Z; bottom : Z }.

(** [Qt.Window] and [Qt.FramelessWindowHint] of [Qt::WindowType]. *)
Definition Qt_Window : Z := 1.
Definition Qt_FramelessWindowHint : Z := 2048.

(** A [vlc.Media] object.  Python objects have an identity: [media_id] is
    the allocation number of the object, [media_mrl] the file it was
    created from. *)
Record Media := mkMedia { media_id : nat; media_mrl : string }.

(** [float(z)] for a Python int that fits a Qt [int]. *)
Definition float_of_int (z : Z) : float :=
  if z <? 0 then PrimFloat.opp (PrimFloat.of_uint63 (Uint63.of_Z (- z)))
  else PrimFloat.of_uint63 (Uint63.of_Z z).

Inductive PyExc := TypeError | AttributeError | ValueError | OverflowError.

(** [int(f)]: truncation toward zero; raises on an infinity or a NaN. *)
Definition py_int (f : float) : PyExc + Z :=
  match Prim2SF f with
  | S754_zero _ => inr 0
  | S754_finite s m e =>
      let mag := if 0 <=? e then Z.shiftl (Z.pos m) e
                 else Z.shiftr (Z.pos m) (- e) in
      inr (if s then - mag else mag)
  | S754_infinity _ => inl OverflowError
  | S754_nan => inl ValueError
  end.

(** [round(f)] of the specification's words: the nearest integer, ties to
    the even one.  The source never calls it; it is here to be compared
    with [py_int]. *)
Definition py_round (f : float) : PyExc + Z :=
  match Prim2SF f with
  | S754_zero _ => inr 0
  | S754_finite s m e =>
      let mag :=
        if 0 <=? e then Z.shiftl (Z.pos m) e
        else
          let q := Z.shiftr (Z.pos m) (- e) in
          let r := Z.pos m - Z.shiftl q (- e) in
          let half := Z.shiftl 1 (- e - 1) in
          if (half <? r) || ((r =? half) && Z.odd q) then q + 1 else q in
      inr (if s then - mag else mag)
  | S754_infinity _ => inl OverflowError
  | S754_nan => inl ValueError
  end.

(** ** The native player *)

(** What the code consumes of [vlc.MediaPlayer] and [vlc.Media].  The
    state of a player is abstract; a command returns the next state, a
    query reads the state.  [play] answers 0 or -1.  [get_meta] answers
    the title that goes to [setWindowTitle] (PyQt reads [None] as the
    empty string).  The code never calls [audio_get_volume]; it is the
    query the volume property of the specification is stated with. *)
Class Engine := {
  player : Type;
  is_playing : player -> bool;
  play : player -> Z * player;
  pause : player -> player;
  stop : player -> player;
  set_media : option Media -> player -> player;
  audio_set_volume : Z -> player -> player;
  audio_get_volume : player -> Z;
  set_position : float -> player -> player;
  get_position : player -> float;
  get_meta : Media -> Z -> string
}.

(** ** The call log *)

Inductive Call :=
| QFileDialog_getOpenFileName
| Self_hide | Self_show | Self_showFullScreen | Self_showNormal
| Self_isHidden
| Self_x | Self_y | Self_width | Self_height | Self_windowFlags
| Self_setWindowFlags (flags : Z)
| Self_move (x y : Z)
| Self_resize (w h : Z)
| Self_setWindowTitle (title : string)
| Layout_contentsMargins
| Layout_setContentsMargins (l t r b : Z)
| Desktop_screenCount
| Desktop_screenGeometry (screen : Z)
| Timer_start | Timer_stop
| Button_setText (text : string)
| VolumeSlider_setValue (v : Z)
| PositionSlider_value
| PositionSlider_setValue (v : Z)
| Vlc_media_new (filename : string)
| Vlc_set_media (m : option Media)
| Vlc_parse (m : Media)
| Vlc_get_meta (m : Media)
| Vlc_is_playing | Vlc_play | Vlc_pause | Vlc_stop
| Vlc_audio_set_volume (v : Z)
| Vlc_set_position (pos : float)
| Vlc_get_position.

(** ** State *)

(** The attributes [PlayerWindow.__init__] assigns. *)
Record PlayerWindow := mkPlayerWindow {
  _media : option Media;
  _volume : Z;
  _wnd_x : option Z;
  _wnd_y : option Z;
  _wnd_w : option Z;
  _wnd_h : option Z;
  _wnd_flags : option Z;
  _ly_margins : option QMargins;
  _is_fullscreen : bool
}.

(** [self.setMinimumSize(640, 480)] of [PlayerWindow.create_ui]. *)
Definition minimumWidth : Z := 640.
Definition minimumHeight : Z := 480.

(** The Qt side of a [PlayerWindow]: the top-level widget and its layout.
    [asked_width] and [asked_height] are the size last asked for, by
    [resize] or by whoever resized the window. *)
Record QWidget := mkQWidget {
  x : Z; y : Z; asked_width : Z; asked_height : Z;
  windowFlags : Z;
  contentsMargins : QMargins;
  isHidden : bool;
  isFullScreen : bool;
  windowTitle : string
}.

(** [width()] and [height()]: Qt keeps the size of a widget at or above
    its minimum size, whatever size was asked for. *)
Definition width (q : QWidget) : Z := Z.max minimumWidth (asked_width q).
Definition height (q : QWidget) : Z := Z.max minimumHeight (asked_height q).

(** The widgets of a [ControlPanel] the player reads or writes.
    [isSliderDown] is that of the position slider: whether the user holds
    its handle. *)
Record ControlPanel := mkControlPanel {
  _screen_num : Z;
  _play_pause_button : string;
  _volume_slider : Z;
  _position_slider : Z;
  isSliderDown : bool
}.

Record QDesktop := mkDesktop
  { screenCount : Z; screenGeometry : Z -> QRect }.

Section Player.

Context {E : Engine}.

(** One slot (a [ControlPanel], its [PlayerWindow] and the vlc player of
    that window) together with what the slots share: the timer of the
    main window, the desktop, the allocator of Python objects and the
    call log. *)
Record World := mkWorld {
  pw : PlayerWindow;
  win : QWidget;
  panel : ControlPanel;
  vlc : player;
  timer_active : bool;
  desktop : QDesktop;
  next_media_id : nat;
  log : list Call
}.

(** *** Field updates *)

Definition on_pw (f : PlayerWindow -> PlayerWindow) (w : World) : World :=
  mkWorld (f (pw w)) (win w) (panel w) (vlc w) (timer_active w) (desktop w)
          (next_media_id w) (log w).
Definition on_win (f : QWidget -> QWidget) (w : World) : World :=
  mkWorld (pw w) (f (win w)) (panel w) (vlc w) (timer_active w) (desktop w)
          (next_media_id w) (log w).
Definition on_panel (f : ControlPanel -> ControlPanel) (w : World) : World :=
  mkWorld (pw w) (win w) (f (panel w)) (vlc w) (timer_active w) (desktop w)
          (next_media_id w) (log w).
Definition on_vlc (f : player -> player) (w : World) : World :=
  mkWorld (pw w) (win w) (panel w) (f (vlc w)) (timer_active w) (desktop w)
          (next_media_id w) (log w).
Definition with_timer (b : bool) (w : World) : World :=
  mkWorld (pw w) (win w) (panel w) (vlc w) b (desktop w)
          (next_media_id w) (log w).
Definition with_next_media_id (n : nat) (w : World) : World :=
  mkWorld (pw w) (win w) (panel w) (vlc w) (timer_active w) (desktop w)
          n (log w).
Definition logged (cs : list Call) (w : World) : World :=
  mkWorld (pw w) (win w) (panel w) (vlc w) (timer_active w) (desktop w)
          (next_media_id w) (log w ++ cs).

Definition put_media v (p : PlayerWindow) :=
  mkPlayerWindow v (_volume p) (_wnd_x p) (_wnd_y p) (_wnd_w p) (_wnd_h p)
                 (_wnd_flags p) (_ly_margins p) (_is_fullscreen p).
Definition put_volume v (p : PlayerWindow) :=
  mkPlayerWindow (_media p) v (_wnd_x p) (_wnd_y p) (_wnd_w p) (_wnd_h p)
                 (_wnd_flags p) (_ly_margins p) (_is_fullscreen p).
Definition put_wnd_x v (p : PlayerWindow) :=
  mkPlayerWindow (_media p) (_volume p) v (_wnd_y p) (_wnd_w p) (_wnd_h p)
                 (_wnd_flags p) (_ly_margins p) (_is_fullscreen p).
Definition put_wnd_y v (p : PlayerWindow) :=
  mkPlayerWindow (_media p) (_volume p) (_wnd_x p) v (_wnd_w p) (_wnd_h p)
                 (_wnd_flags p) (_ly_margins p) (_is_fullscreen p).
Definition put_wnd_w v (p : PlayerWindow) :=
  mkPlayerWindow (_media p) (_volume p) (_wnd_x p) (_wnd_y p) v (_wnd_h p)
                 (_wnd_flags p) (_ly_margins p) (_is_fullscreen p).
Definition put_wnd_h v (p : PlayerWindow) :=
  mkPlayerWindow (_media p) (_volume p) (_wnd_x p) (_wnd_y p) (_wnd_w p) v
                 (_wnd_flags p) (_ly_margins p) (_is_fullscreen p).
Definition put_wnd_flags v (p : PlayerWindow) :=
  mkPlayerWindow (_media p) (_volume p) (_wnd_x p) (_wnd_y p) (_wnd_w p)
                 (_wnd_h p) v (_ly_margins p) (_is_fullscreen p).
Definition put_ly_margins v (p : PlayerWindow) :=
  mkPlayerWindow (_media p) (_volume p) (_wnd_x p) (_wnd_y p) (_wnd_w p)
                 (_wnd_h p) (_wnd_flags p) v (_is_fullscreen p).
Definition put_is_fullscreen v (p : PlayerWindow) :=
  mkPlayerWindow (_media p) (_volume p) (_wnd_x p) (_wnd_y p) (_wnd_w p)
                 (_wnd_h p) (_wnd_flags p) (_ly_margins p) v.

Definition put_pos (nx ny : Z) (q : QWidget) :=
  mkQWidget nx ny (asked_width q) (asked_height q) (windowFlags q)
            (contentsMargins q) (isHidden q) (isFullScreen q) (windowTitle q).
Definition put_size (nw nh : Z) (q : QWidget) :=
  mkQWidget (x q) (y q) nw nh (windowFlags q) (contentsMargins q)
            (isHidden q) (isFullScreen q) (windowTitle q).
Definition put_windowFlags (f : Z) (q : QWidget) :=
  mkQWidget (x q) (y q) (asked_width q) (asked_height q) f (contentsMargins q)
            (isHidden q) (isFullScreen q) (windowTitle q).
Definition put_contentsMargins (m : QMargins) (q : QWidget) :=
  mkQWidget (x q) (y q) (asked_width q) (asked_height q) (windowFlags q) m
            (isHidden q) (isFullScreen q) (windowTitle q).
Definition put_shown (hidden full : bool) (q : QWidget) :=
  mkQWidget (x q) (y q) (asked_width q) (asked_height q) (windowFlags q)
            (contentsMargins q) hidden full (windowTitle q).
Definition put_windowTitle (t : string) (q : QWidget) :=
  mkQWidget (x q) (y q) (asked_width q) (asked_height q) (windowFlags q)
            (contentsMargins q) (isHidden q) (isFullScreen q) t.

Definition put_button_text (t : string) (c : ControlPanel) :=
  mkControlPanel (_screen_num c) t (_volume_slider c) (_position_slider c)
                 (isSliderDown c).
Definition put_volume_slider (v : Z) (c : ControlPanel) :=
  mkControlPanel (_screen_num c) (_play_pause_button c) v (_position_slider c)
                 (isSliderDown c).
Definition put_position_slider (v : Z) (c : ControlPanel) :=
  mkControlPanel (_screen_num c) (_play_pause_button c) (_volume_slider c) v
                 (isSliderDown c).
Definition put_slider_down (b : bool) (c : ControlPanel) :=
  mkControlPanel (_screen_num c) (_play_pause_button c) (_volume_slider c)
                 (_position_slider c) b.

(** *** The monad *)

Inductive Res (A : Type) :=
| Ok (a : A) (w : World)
| Raise (e : PyExc) (w : World).
Arguments Ok {A} a w.
Arguments Raise {A} e w.

Definition M (A : Type) : Type := World -> Res A.

Definition ret {A} (a : A) : M A := fun w => Ok a w.
Definition bind {A B} (m : M A) (k : A -> M B) : M B :=
  fun w => match m w with
           | Ok a w' => k a w'
           | Raise e w' => Raise e w'
           end.
Definition raise {A} (e : PyExc) : M A := fun w => Raise e w.

Notation "v <- m ;; k" := (bind m (fun v => k))
  (at level 61, m at next level, right associativity).
Notation "m ;; k" := (bind m (fun _ => k))
  (at level 61, right associativity).

(** The world a computation ends in, whether it returned or raised. *)
Definition world_of {A} (r : Res A) : World :=
  match r with Ok _ w => w | Raise _ w => w end.

Definition read {A} (f : World -> A) : M A := fun w => Ok (f w) w.
Definition update (f : World -> World) : M unit := fun w => Ok tt (f w).
Definition call (c : Call) : M unit := update (logged [c]).
Definition self {A} (f : PlayerWindow -> A) : M A := read (fun w => f (pw w)).
Definition assign (f : PlayerWindow -> PlayerWindow) : M unit :=
  update (on_pw f).

(** A value passed where Qt expects an [int], flags or an object. *)
Definition expect {A} (e : PyExc) (o : option A) : M A :=
  match o with Some a => ret a | None => raise e end.

Definition lift_exc {A} (r : PyExc + A) : M A :=
  match r with inr a => ret a | inl e => raise e end.

(** Truth value of [self._media]: [None] or an object. *)
Definition truthy {A} (o : option A) : bool :=
  match o with Some _ => true | None => false end.


(** *** Qt: the window, its layout, the desktop, the timer, the panel *)

Definition self_hide : M unit :=
  call Self_hide ;;
  update (on_win (fun q => put_shown true (isFullScreen q) q)).
Definition self_show : M unit :=
  call Self_show ;;
  update (on_win (fun q => put_shown false (isFullScreen q) q)).
Definition self_showFullScreen : M unit :=
  call Self_showFullScreen ;; update (on_win (put_shown false true)).
Definition self_showNormal : M unit :=
  call Self_showNormal ;; update (on_win (put_shown false false)).
Definition self_isHidden : M bool :=
  call Self_isHidden ;; read (fun w => isHidden (win w)).
Definition self_x : M Z := call Self_x ;; read (fun w => x (win w)).
Definition self_y : M Z := call Self_y ;; read (fun w => y (win w)).
Definition self_width : M Z :=
  call Self_width ;; read (fun w => width (win w)).
Definition self_height : M Z :=
  call Self_height ;; read (fun w => height (win w)).
Definition self_windowFlags : M Z :=
  call Self_windowFlags ;; read (fun w => windowFlags (win w)).
Definition self_setWindowFlags (flags : Z) : M unit :=
  call (Self_setWindowFlags flags) ;; update (on_win (put_windowFlags flags)).
Definition self_move (nx ny : Z) : M unit :=
  call (Self_move nx ny) ;; update (on_win (put_pos nx ny)).
Definition self_resize (nw nh : Z) : M unit :=
  call (Self_resize nw nh) ;; update (on_win (put_size nw nh)).
Definition self_setWindowTitle (title : string) : M unit :=
  call (Self_setWindowTitle title) ;; update (on_win (put_windowTitle title)).

Definition layout_contentsMargins : M QMargins :=
  call Layout_contentsMargins ;; read (fun w => contentsMargins (win w)).
Definition layout_setContentsMargins (l t r b : Z) : M unit :=
  call (Layout_setContentsMargins l t r b) ;;
  update (on_win (put_contentsMargins (mkMargins l t r b))).

Definition desktop_screenCount : M Z :=
  call Desktop_screenCount ;; read (fun w => screenCount (desktop w)).
Definition desktop_screenGeometry (screen : Z) : M QRect :=
  call (Desktop_screenGeometry screen) ;;
  read (fun w => screenGeometry (desktop w) screen).

Definition timer_start : M unit := call Timer_start ;; update (with_timer true).
Definition timer_stop : M unit := call Timer_stop ;; update (with_timer false).

Definition button_setText (text : string) : M unit :=
  call (Button_setText text) ;; update (on_panel (put_button_text text)).

(** [QAbstractSlider] keeps a value inside [minimum, maximum]. *)
Definition slider_bound (minimum v maximum : Z) : Z :=
  Z.max minimum (Z.min maximum v).

Definition position_slider_value : M Z :=
  call PositionSlider_value ;; read (fun w => _position_slider (panel w)).

(** *** vlc *)

Definition vlc_is_playing : M bool :=
  call Vlc_is_playing ;; read (fun w => is_playing (vlc w)).
Definition vlc_play : M Z :=
  call Vlc_play ;;
  r <- read (fun w => fst (play (vlc w))) ;;
  update (on_vlc (fun p => snd (play p))) ;;
  ret r.
Definition vlc_pause : M unit := call Vlc_pause ;; update (on_vlc pause).
Definition vlc_stop : M unit := call Vlc_stop ;; update (on_vlc stop).
Definition vlc_set_media (m : option Media) : M unit :=
  call (Vlc_set_media m) ;; update (on_vlc (set_media m)).
Definition vlc_audio_set_volume (v : Z) : M unit :=
  call (Vlc_audio_set_volume v) ;; update (on_vlc (audio_set_volume v)).
Definition vlc_set_position (pos : float) : M unit :=
  call (Vlc_set_position pos) ;; update (on_vlc (set_position pos)).
Definition vlc_get_position : M float :=
  call Vlc_get_position ;; read (fun w => get_position (vlc w)).

(** [self._vlc_instance.media_new(filename)]: a new Python object. *)
Definition vlc_media_new (filename : string) : M Media :=
  call (Vlc_media_new filename) ;;
  n <- read next_media_id ;;
  update (with_next_media_id (S n)) ;;
  ret (mkMedia n filename).

(** [self._media] where a method is called on it. *)
Definition self_media : M Media :=
  media <- self _media ;; expect AttributeError media.
Definition media_parse (m : Media) : M unit := call (Vlc_parse m).
Definition media_get_meta (m : Media) (k : Z) : M string :=
  call (Vlc_get_meta m) ;; ret (get_meta m k).

(** ** PlayerWindow *)

Definition set_volume_action (volume : Z) : M unit :=
  assign (put_volume volume) ;;
  media <- self _media ;;
  if negb (truthy media) then ret tt else
  v <- self _volume ;;
  vlc_audio_set_volume v.

(** [self._owner._volume_slider.setValue(v)]: the slider bounds the value
    to 0..100 and, when its value changes, emits [valueChanged], which
    [ControlPanel.create_ui] connects to [set_volume_action]. *)
Definition volume_slider_setValue (v : Z) : M unit :=
  call (VolumeSlider_setValue v) ;;
  old <- read (fun w => _volume_slider (panel w)) ;;
  if slider_bound 0 v 100 =? old then ret tt else
  update (on_panel (put_volume_slider (slider_bound 0 v 100))) ;;
  set_volume_action (slider_bound 0 v 100).

Definition set_position_action : M unit :=
  media <- self _media ;;
  if negb (truthy media) then ret tt else
  timer_stop ;;
  pos <- position_slider_value ;;
  vlc_set_position (PrimFloat.div (float_of_int pos) 1000%float) ;;
  timer_start.

(** [self._position_slider.setValue(v)]: the slider bounds the value to
    0..1000 and returns when that is the value it has.  When the value
    changes while the user holds the handle, the slider emits
    [sliderMoved], which [ControlPanel.create_ui] connects to
    [set_position_action]; the [valueChanged] it also emits is connected
    to nothing.  ([setValue] takes a C int; the thousandfold of a
    normalized position is far inside it, and a Python int outside it is
    bounded here like any other.) *)
Definition position_slider_setValue (v : Z) : M unit :=
  call (PositionSlider_setValue v) ;;
  old <- read (fun w => _position_slider (panel w)) ;;
  if slider_bound 0 v 1000 =? old then ret tt else
  update (on_panel (put_position_slider (slider_bound 0 v 1000))) ;;
  down <- read (fun w => isSliderDown (panel w)) ;;
  if down then set_position_action else ret tt.

Definition stop_action : M unit :=
  vlc_stop ;;
  button_setText "Play".

Definition release_media : M unit :=
  media <- self _media ;;
  if negb (truthy media) then ret tt else
  stop_action ;;
  vlc_set_media None ;;
  assign (put_media None).

(** [filename] is what the file dialog returned: the empty string when
    the user cancelled. *)
Definition open_action (filename : string) : M unit :=
  call QFileDialog_getOpenFileName ;;
  if (filename =? "")%string then ret tt else
  release_media ;;
  m <- vlc_media_new filename ;;
  assign (put_media (Some m)) ;;
  media <- self _media ;;
  vlc_set_media media ;;
  m <- self_media ;;
  media_parse m ;;
  v <- self _volume ;;
  volume_slider_setValue v ;;
  m <- self_media ;;
  title <- media_get_meta m 0 ;;
  self_setWindowTitle title ;;
  self_show.

Definition play_pause_action : M unit :=
  playing <- vlc_is_playing ;;
  if playing then
    vlc_pause ;;
    button_setText "Play"
  else
    r <- vlc_play ;;
    if r =? -1 then ret tt else
    hidden <- self_isHidden ;;
    (if hidden then self_show else ret tt) ;;
    button_setText "Pause" ;;
    timer_start.

Definition toggle_fullscreen_action : M unit :=
  media <- self _media ;;
  if negb (truthy media) then ret tt else
  self_hide ;;
  fs <- self _is_fullscreen ;;
  if negb fs then
    v <- self_x ;; assign (put_wnd_x (Some v)) ;;
    v <- self_y ;; assign (put_wnd_y (Some v)) ;;
    v <- self_width ;; assign (put_wnd_w (Some v)) ;;
    v <- self_height ;; assign (put_wnd_h (Some v)) ;;
    v <- self_windowFlags ;; assign (put_wnd_flags (Some v)) ;;
    v <- layout_contentsMargins ;; assign (put_ly_margins (Some v)) ;;
    screen_num <- read (fun w => _screen_num (panel w)) ;;
    screen_count <- desktop_screenCount ;;
    screenres <- desktop_screenGeometry
                   (if screen_num <? screen_count then screen_num else 0) ;;
    self_setWindowFlags (Z.lor Qt_Window Qt_FramelessWindowHint) ;;
    layout_setContentsMargins 0 0 0 0 ;;
    self_move (rect_x screenres) (rect_y screenres) ;;
    self_resize (rect_width screenres) (rect_height screenres) ;;
    self_showFullScreen ;;
    assign (put_is_fullscreen true)
  else
    flags <- (v <- self _wnd_flags ;; expect TypeError v) ;;
    self_setWindowFlags flags ;;
    margins <- (v <- self _ly_margins ;; expect AttributeError v) ;;
    layout_setContentsMargins (left margins) (top margins)
                              (right margins) (bottom margins) ;;
    wx <- (v <- self _wnd_x ;; expect TypeError v) ;;
    wy <- (v <- self _wnd_y ;; expect TypeError v) ;;
    self_move wx wy ;;
    ww <- (v <- self _wnd_w ;; expect TypeError v) ;;
    wh <- (v <- self _wnd_h ;; expect TypeError v) ;;
    self_resize ww wh ;;
    self_showNormal ;;
    assign (put_is_fullscreen false).

Definition close_action : M unit :=
  media <- self _media ;;
  if negb (truthy media) then ret tt else
  fs <- self _is_fullscreen ;;
  (if fs then toggle_fullscreen_action else ret tt) ;;
  self_hide ;;
  release_media.

(** ** ControlPanel *)

Definition update_ui : M unit :=
  media <- self _media ;;
  shown <- (if truthy media then
              p <- vlc_get_position ;;
              pos <- lift_exc (py_int (PrimFloat.mul p (float_of_int 1000))) ;;
              playing <- vlc_is_playing ;;
              ret (pos, if playing then "Pause" else "Play")
            else
              ret (0, "Play")) ;;
  position_slider_setValue (fst shown) ;;
  button_setText (snd shown).

(** ** MainWindow *)

Definition MAX_DISPLAYS : nat := 4.

(** A [ControlPanel] with the [PlayerWindow] it owns. *)
Record Slot := mkSlot {
  slot_pw : PlayerWindow;
  slot_win : QWidget;
  slot_panel : ControlPanel;
  slot_vlc : player
}.

Record MainWindow := mkMainWindow {
  _controls : list Slot;
  _timer : bool;
  mw_desktop : QDesktop;
  mw_next_media_id : nat;
  mw_log : list Call
}.

(** A method of one control runs on that control and the shared parts. *)
Definition enter (s : Slot) (mw : MainWindow) : World :=
  mkWorld (slot_pw s) (slot_win s) (slot_panel s) (slot_vlc s)
          (_timer mw) (mw_desktop mw) (mw_next_media_id mw) (mw_log mw).
Definition slot_of (w : World) : Slot :=
  mkSlot (pw w) (win w) (panel w) (vlc w).
Definition leave (controls : list Slot) (w : World) : MainWindow :=
  mkMainWindow controls (timer_active w) (desktop w) (next_media_id w) (log w).

(** [for control in self._controls: f(control)], the controls already
    visited in [done]. *)
Fixpoint for_controls (f : M unit) (done todo : list Slot) (mw : MainWindow)
  : PyExc * MainWindow + MainWindow :=
  match todo with
  | [] => inr mw
  | s :: rest =>
      match f (enter s mw) with
      | Ok _ w' =>
          for_controls f (done ++ [slot_of w']) rest
                       (leave (done ++ slot_of w' :: rest) w')
      | Raise e w' => inl (e, leave (done ++ slot_of w' :: rest) w')
      end
  end.

Definition play_pause_all_action (mw : MainWindow) :=
  for_controls play_pause_action [] (_controls mw) mw.
Definition stop_all_action (mw : MainWindow) :=
  for_controls stop_action [] (_controls mw) mw.
Definition MainWindow_update_ui (mw : MainWindow) :=
  for_controls update_ui [] (_controls mw) mw.

(** ** Initial state *)

Definition PlayerWindow_init : PlayerWindow :=
  mkPlayerWindow None 100 None None None None None None false.

(** A top-level widget that was never shown is hidden.  Its geometry, its
    flags and the margins of its layout are the toolkit's. *)
Definition QWidget_init (g : QRect) (flags : Z) (margins : QMargins) : QWidget :=
  mkQWidget (rect_x g) (rect_y g) (rect_width g) (rect_height g)
            flags margins true false "".

Definition ControlPanel_init (screen_num : Z) : ControlPanel :=
  mkControlPanel screen_num "Play" 100 0 false.

Definition Slot_init (q : QWidget) (p : player) (screen_num : Z) : Slot :=
  mkSlot PlayerWindow_init q (ControlPanel_init screen_num) p.

Definition MainWindow_init (q : QWidget) (p : player) (d : QDesktop)
  : MainWindow :=
  mkMainWindow
    (map (fun i => Slot_init q p (Z.of_nat i + 1)) (seq 0 MAX_DISPLAYS))
    false d 0%nat [].

Definition World_init (q : QWidget) (p : player) (d : QDesktop)
                      (screen_num : Z) : World :=
  enter (Slot_init q p screen_num) (MainWindow_init q p d).

(** ** Well-formed states *)

Definition saved_geometry (p : PlayerWindow) : bool :=
  truthy (_wnd_x p) && truthy (_wnd_y p) && truthy (_wnd_w p)
  && truthy (_wnd_h p) && truthy (_wnd_flags p) && truthy (_ly_margins p).

(** The saved geometry is there while the window is fullscreen; the media
    object is one that was allocated; the volume slider shows the cached
    volume, which is in the slider's range. *)
Definition wf (w : World) : bool :=
  (negb (_is_fullscreen (pw w)) || saved_geometry (pw w))
  && match _media (pw w) with
     | Some m => (media_id m <? next_media_id w)%nat
     | None => true
     end
  && (_volume_slider (panel w) =? _volume (pw w))
  && (0 <=? _volume (pw w)) && (_volume (pw w) <=? 100).

(** The user drags the volume slider to [v]: the slider emits
    [valueChanged] when the value is a new one. *)
Definition volume_slider_moved (v : Z) : M unit :=
  old <- read (fun w => _volume_slider (panel w)) ;;
  if slider_bound 0 v 100 =? old then ret tt else
  update (on_panel (put_volume_slider (slider_bound 0 v 100))) ;;
  set_volume_action (slider_bound 0 v 100).

(** The user presses the handle of the position slider: the slider
    emits [sliderPressed], connected to [set_position_action]. *)
Definition position_slider_pressed : M unit :=
  update (on_panel (put_slider_down true)) ;;
  set_position_action.

(** The user drags the held handle to [v]: the slider emits
    [sliderMoved], connected to [set_position_action], before its value
    follows the handle. *)
Definition position_slider_moved (v : Z) : M unit :=
  set_position_action ;;
  update (on_panel (put_position_slider (slider_bound 0 v 1000))).

(** The user lets go of the handle. *)
Definition position_slider_released : M unit :=
  update (on_panel (put_slider_down false)).

(** What can happen to a slot: a user action on its panel, a timer tick,
    or anything the code does not control (the window manager, the engine,
    the other slots), which leaves the Python attributes and the volume
    slider alone and never frees an allocation number. *)
Inductive step : World -> World -> Prop :=
| step_volume v w : step w (world_of (volume_slider_moved v w))
| step_position_pressed w : step w (world_of (position_slider_pressed w))
| step_position v w : step w (world_of (position_slider_moved v w))
| step_position_released w : step w (world_of (position_slider_released w))
| step_open filename w : step w (world_of (open_action filename w))
| step_close w : step w (world_of (close_action w))
| step_play_pause w : step w (world_of (play_pause_action w))
| step_stop w : step w (world_of (stop_action w))
| step_toggle_fullscreen w : step w (world_of (toggle_fullscreen_action w))
| step_update_ui w : step w (world_of (update_ui w))
| step_outside w w' :
    pw w' = pw w ->
    _volume_slider (panel w') = _volume_slider (panel w) ->
    (next_media_id w <= next_media_id w')%nat ->
    step w w'.

Inductive reachable (w0 : World) : World -> Prop :=
| reachable_init : reachable w0 w0
| reachable_step w w' : reachable w0 w -> step w w' -> reachable w0 w'.

End Player.

Arguments Ok {E A} a w.
Arguments Raise {E A} e w.

Notation "v <- m ;; k" := (bind m (fun v => k))
  (at level 61, m at next level, right associativity).
Notation "m ;; k" := (bind m (fun _ => k))
  (at level 61, right associativity).

(** ** A reference engine *)

(** A player that holds what it was told: the media, the volume, the
    position, whether it plays.  It refuses to play without a media. *)
Record SimplePlayer := mkSimplePlayer {
  sp_media : option Media;
  sp_playing : bool;
  sp_volume : Z;
  sp_position : float
}.

Definition simple_engine : Engine := {|
  player := SimplePlayer;
  is_playing p := sp_playing p;
  play p :=
    match sp_media p with
    | Some _ => (0, mkSimplePlayer (sp_media p) true (sp_volume p) (sp_position p))
    | None => (-1, p)
    end;
  pause p := mkSimplePlayer (sp_media p) false (sp_volume p) (sp_position p);
  stop p := mkSimplePlayer (sp_media p) false (sp_volume p) 0%float;
  set_media m p := mkSimplePlayer m (sp_playing p) (sp_volume p) (sp_position p);
  audio_set_volume v p :=
    mkSimplePlayer (sp_media p) (sp_playing p) v (sp_position p);
  audio_get_volume p := sp_volume p;
  set_position f p := mkSimplePlayer (sp_media p) (sp_playing p) (sp_volume p) f;
  get_position p := sp_position p;
  get_meta m _ := media_mrl m
|}.

(** ** The player without a media *)

(** What [play_pause_action] and [stop_action], which do not look at
    [_media], rely on.  [idle] holds of a player that has no media: such
    a player does not report that it plays and answers -1 to [play()],
    it is still without a media after that and after [stop()], and the
    [stop()] and [set_media(None)] of [release_media] leave a player
    without one. *)
Record IdleContract {E : Engine} (idle : player -> Prop) : Prop := {
  idle_released : forall p, idle (set_media None (stop p));
  idle_not_playing : forall p, idle p -> is_playing p = false;
  idle_play_refused : forall p, idle p -> fst (play p) = -1;
  idle_after_play : forall p, idle p -> idle (snd (play p));
  idle_after_stop : forall p, idle p -> idle (stop p)
}.

(** The steps of [step], with this on what the code does not control: it
    gives no media to a player that has none. *)
Inductive lawful_step {E : Engine} (idle : player -> Prop)
  : World -> World -> Prop :=
| lawful_volume v w : lawful_step idle w (world_of (volume_slider_moved v w))
| lawful_position_pressed w :
    lawful_step idle w (world_of (position_slider_pressed w))
| lawful_position v w :
    lawful_step idle w (world_of (position_slider_moved v w))
| lawful_position_released w :
    lawful_step idle w (world_of (position_slider_released w))
| lawful_open filename w : lawful_step idle w (world_of (open_action filename w))
| lawful_close w : lawful_step idle w (world_of (close_action w))
| lawful_play_pause w : lawful_step idle w (world_of (play_pause_action w))
| lawful_stop w : lawful_step idle w (world_of (stop_action w))
| lawful_toggle_fullscreen w :
    lawful_step idle w (world_of (toggle_fullscreen_action w))
| lawful_update_ui w : lawful_step idle w (world_of (update_ui w))
| lawful_outside w w' :
    pw w' = pw w ->
    _volume_slider (panel w') = _volume_slider (panel w) ->
    (next_media_id w <= next_media_id w')%nat ->
    (idle (vlc w) -> idle (vlc w')) ->
    lawful_step idle w w'.

Inductive lawful_reachable {E : Engine} (idle : player -> Prop) (w0 : World)
  : World -> Prop :=
| lawful_reachable_init : lawful_reachable idle w0 w0
| lawful_reachable_step w w' :
    lawful_reachable idle w0 w -> lawful_step idle w w' ->
    lawful_reachable idle w0 w'.

(** A slot without a media has a player without one. *)
Definition idle_without_media {E : Engine} (idle : player -> Prop)
                              (w : World) : Prop :=
  _media (pw w) = None -> idle (vlc w).

(** [idle] for the reference player. *)
Definition simple_idle (p : SimplePlayer) : Prop :=
  sp_media p = None /\ sp_playing p = false.

(** ** Sample states *)

Definition sample_widget : QWidget :=
  QWidget_init (mkRect 100 80 640 480) Qt_Window (mkMargins 11 11 11 11).

Definition sample_desktop : QDesktop :=
  mkDesktop 2 (fun i => if i =? 1 then mkRect 1920 0 1280 1024
                        else mkRect 0 0 1920 1080).

Definition sample_player : SimplePlayer :=
  mkSimplePlayer None false 100 0%float.

(** Slot 1 at start-up. *)
Definition w_start : @World simple_engine :=
  @World_init simple_engine sample_widget sample_player sample_desktop 1.

(** Slot 1 after a file was opened. *)
Definition w_opened : @World simple_engine :=
  world_of (open_action "a.mp4" w_start).

(** Slot 1 after the opened window was put fullscreen. *)
Definition w_fullscreen : @World simple_engine :=
  world_of (toggle_fullscreen_action w_opened).

(** A desktop with one display, smaller than the minimum window size. *)
Definition small_desktop : QDesktop :=
  mkDesktop 1 (fun _ => mkRect 0 0 240 320).

(** Slot 1 on that desktop, after a file was opened. *)
Definition w_small : @World simple_engine :=
  world_of (open_action "a.mp4"
              (@World_init simple_engine sample_widget sample_player
                           small_desktop 1)).

(** Slot 1 after the opened file was closed. *)
Definition w_closed : @World simple_engine :=
  world_of (close_action w_opened).

(** Slot 1 after a file was opened and the position slider dragged to
    its middle. *)
Definition w_seek : @World simple_engine :=
  @on_panel simple_engine (put_position_slider 500) w_opened.

(** Slot 1 playing, 1/1024 of the way into its file. *)
Definition w_playing : @World simple_engine :=
  @on_vlc simple_engine
    (fun p : SimplePlayer =>
       mkSimplePlayer (sp_media p) true (sp_volume p) 0.0009765625%float)
    w_opened.

(** A main window whose first slot plays and whose other slots are empty. *)
Definition mw_sample : @MainWindow simple_engine :=
  @mkMainWindow simple_engine
    [slot_of w_playing;
     @Slot_init simple_engine sample_widget sample_player 2;
     @Slot_init simple_engine sample_widget sample_player 3;
     @Slot_init simple_engine sample_widget sample_player 4]
    true sample_desktop 1%nat (log w_playing).

(** ** What a refresh shows *)

(** [int(get_position() * 1000)] for the player of a slot. *)
Definition position_read {E : Engine} (p : player) : PyExc + Z :=
  py_int (PrimFloat.mul (get_position p) (float_of_int 1000)).

(** The panel after [setValue(pos)] on the position slider and
    [setText(text)] on the play/pause button. *)
Definition refreshed (pos : Z) (text : string) (c : ControlPanel)
  : ControlPanel :=
  put_button_text text (put_position_slider (slider_bound 0 pos 1000) c).

(** The position [set_position_action] hands to the player. *)
Definition seek_target (value : Z) : float :=
  PrimFloat.div (float_of_int value) 1000%float.

(** Whether [setValue(pos)] on the position slider of a slot ends in a
    seek: the value changes, the user holds the handle, and the slot has
    a media for [set_position_action] to go on. *)
Definition refresh_seeks {E : Engine} (s : Slot) (pos : Z) : bool :=
  negb (slider_bound 0 pos 1000 =? _position_slider (slot_panel s))
  && isSliderDown (slot_panel s) && truthy (_media (slot_pw s)).

(** The slot a refresh that shows [pos] and [text] leaves behind. *)
Definition shown_slot {E : Engine} (s : Slot) (pos : Z) (text : string)
  : Slot :=
  mkSlot (slot_pw s) (slot_win s) (refreshed pos text (slot_panel s))
         (if refresh_seeks s pos
          then set_position (seek_target (slider_bound 0 pos 1000))
                            (slot_vlc s)
          else slot_vlc s).

(** The slot [update_ui] leaves behind when it returns. *)
Definition update_ui_slot {E : Engine} (s : Slot) : Slot :=
  match _media (slot_pw s) with
  | None => shown_slot s 0 "Play"
  | Some _ =>
      match position_read (slot_vlc s) with
      | inr n =>
          shown_slot s n (if is_playing (slot_vlc s) then "Pause" else "Play")
      | inl _ => s
      end
  end.

(** Whether [update_ui] on a slot ends in a seek, which starts the timer. *)
Definition update_ui_seeks {E : Engine} (s : Slot) : bool :=
  match _media (slot_pw s) with
  | None => false
  | Some _ =>
      match position_read (slot_vlc s) with
      | inr n => refresh_seeks s n
      | inl _ => false
      end
  end.

(** The flag and the saved geometry the fullscreen toggle works on. *)
Definition fullscreen_fields {E : Engine} (w : World) :=
  (_is_fullscreen (pw w), _wnd_x (pw w), _wnd_y (pw w), _wnd_w (pw w),
   _wnd_h (pw w), _wnd_flags (pw w), _ly_margins (pw w)).

(** ** What the loops of the main window leave behind *)

(** The slot [stop_action] leaves behind. *)
Definition stop_slot {E : Engine} (s : Slot) : Slot :=
  mkSlot (slot_pw s) (slot_win s) (put_button_text "Play" (slot_panel s))
         (stop (slot_vlc s)).

(** Whether [play_pause_action] gets as far as [self._timer.start()]. *)
Definition play_pause_starts {E : Engine} (s : Slot) : bool :=
  negb (is_playing (slot_vlc s)) && negb (fst (play (slot_vlc s)) =? -1).

(** The slot [play_pause_action] leaves behind. *)
Definition play_pause_slot {E : Engine} (s : Slot) : Slot :=
  if is_playing (slot_vlc s) then
    mkSlot (slot_pw s) (slot_win s) (put_button_text "Play" (slot_panel s))
           (pause (slot_vlc s))
  else if fst (play (slot_vlc s)) =? -1 then
    mkSlot (slot_pw s) (slot_win s) (slot_panel s) (snd (play (slot_vlc s)))
  else
    mkSlot (slot_pw s)
           (if isHidden (slot_win s)
            then put_shown false (isFullScreen (slot_win s)) (slot_win s)
            else slot_win s)
           (put_button_text "Pause" (slot_panel s))
           (snd (play (slot_vlc s))).

(** ** Derived quantities *)

(** The screen [toggle_fullscreen_action] asks the geometry of. *)
Definition fullscreen_target (d : QDesktop) (screen_num : Z) : Z :=
  if screen_num <? screenCount d then screen_num else 0.

(** The values of the position slider: 0..1000. *)
Definition slider_values : list Z := map Z.of_nat (seq 0 1001).

(** The Python flag says what the Qt window state is. *)
Definition flag_agrees {E : Engine} (w : World) : Prop :=
  isFullScreen (win w) = _is_fullscreen (pw w).

(** A slot that carries the fullscreen flag has a media. *)
Definition media_when_fullscreen {E : Engine} (w : World) : Prop :=
  _is_fullscreen (pw w) = true -> _media (pw w) <> None.

(** Where the window is and how it is decorated. *)
Definition window_geometry {E : Engine} (w : World) :=
  (x (win w), y (win w), width (win w), height (win w),
   windowFlags (win w), contentsMargins (win w), isFullScreen (win w)).

(** ** Running the model symbolically *)

(** Unfolds the methods and the monad down to record constructors; the
    tests the code makes on toolkit and engine answers stay folded. *)
Ltac run :=
  cbv beta iota zeta delta
    [set_volume_action volume_slider_setValue set_position_action
     stop_action release_media open_action play_pause_action
     toggle_fullscreen_action close_action update_ui
     volume_slider_moved position_slider_moved position_slider_pressed
     position_slider_released put_slider_down isSliderDown
     self_hide self_show self_showFullScreen self_showNormal self_isHidden
     self_x self_y self_width self_height self_windowFlags
     self_setWindowFlags self_move self_resize self_setWindowTitle
     layout_contentsMargins layout_setContentsMargins
     desktop_screenCount desktop_screenGeometry timer_start timer_stop
     button_setText position_slider_value position_slider_setValue
     vlc_is_playing vlc_play vlc_pause vlc_stop vlc_set_media
     vlc_audio_set_volume vlc_set_position vlc_get_position vlc_media_new
     self_media media_parse media_get_meta
     ret bind raise read update call self assign expect lift_exc truthy
     world_of negb
     on_pw on_win on_panel on_vlc with_timer with_next_media_id logged
     put_media put_volume put_wnd_x put_wnd_y put_wnd_w put_wnd_h
     put_wnd_flags put_ly_margins put_is_fullscreen
     put_pos put_size put_windowFlags put_contentsMargins put_shown
     put_windowTitle put_button_text put_volume_slider put_position_slider
     pw win panel vlc timer_active desktop next_media_id log
     _media _volume _wnd_x _wnd_y _wnd_w _wnd_h _wnd_flags _ly_margins
     _is_fullscreen
     x y asked_width asked_height width height windowFlags contentsMargins
     isHidden isFullScreen
     windowTitle
     _screen_num _play_pause_button _volume_slider _position_slider
     left top right bottom rect_x rect_y rect_width rect_height];
  cbn [fst snd].

(** Splits a world into its fields, and the records inside it. *)
Ltac open_world w :=
  let p := fresh "p" in
  let q := fresh "q" in
  let c := fresh "c" in
  destruct w as [p q c ? ? ? ? ?]; destruct p, q, c; cbn in *.

Ltac flatten_log := repeat rewrite <- app_assoc; cbn [app].

(** ** toggle_fullscreen_action *)

(** The way in, as one equation: the world a windowed slot with a media
    is in after the toggle. *)
Lemma toggle_fullscreen_windowed (E : Engine) (w : World) (m : Media) :
  _media (pw w) = Some m ->
  _is_fullscreen (pw w) = false ->
  let target :=
    if _screen_num (panel w) <? screenCount (desktop w)
    then _screen_num (panel w) else 0 in
  let g := screenGeometry (desktop w) target in
  toggle_fullscreen_action w =
  Ok tt (mkWorld
           (mkPlayerWindow (Some m) (_volume (pw w))
              (Some (x (win w))) (Some (y (win w)))
              (Some (width (win w))) (Some (height (win w)))
              (Some (windowFlags (win w))) (Some (contentsMargins (win w)))
              true)
           (mkQWidget (rect_x g) (rect_y g) (rect_width g) (rect_height g)
              (Z.lor Qt_Window Qt_FramelessWindowHint) (mkMargins 0 0 0 0)
              false true (windowTitle (win w)))
           (panel w) (vlc w) (timer_active w) (desktop w) (next_media_id w)
           (log w ++
              [Self_hide; Self_x; Self_y; Self_width; Self_height;
               Self_windowFlags; Layout_contentsMargins; Desktop_screenCount;
               Desktop_screenGeometry target;
               Self_setWindowFlags (Z.lor Qt_Window Qt_FramelessWindowHint);
               Layout_setContentsMargins 0 0 0 0;
               Self_move (rect_x g) (rect_y g);
               Self_resize (rect_width g) (rect_height g);
               Self_showFullScreen])).
Proof.
  intros Hm Hfs target g. subst target g.
  open_world w. subst.
  run. flatten_log. reflexivity.
Qed.

(** C2 as the specification words it fails: the window does not cover a
    display smaller than its minimum size.  [create_ui] sets the minimum
    size to 640x480, so on a 240x320 display the window asked to take
    240x320 stays 640x480. *)
Lemma toggle_fullscreen_small_display_counterexample :
  _media (pw w_small) = Some (mkMedia 0 "a.mp4") /\
  _is_fullscreen (pw w_small) = false /\
  screenGeometry (desktop w_small)
    (if _screen_num (panel w_small) <? screenCount (desktop w_small)
     then _screen_num (panel w_small) else 0) = mkRect 0 0 240 320 /\
  exists w',
    toggle_fullscreen_action w_small = Ok tt w' /\
    (width (win w'), height (win w')) = (640, 480) /\
    (width (win w'), height (win w')) <> (240, 320).
Proof.
  split; [reflexivity|]. split; [reflexivity|]. split; [reflexivity|].
  eexists. split; [vm_compute; reflexivity|].
  split; [reflexivity|]. cbn. discriminate.
Qed.

(** C2, amended: on a slot with a media that is windowed,
    [toggle_fullscreen_action] hides the window, saves position, size,
    flags and margins, asks for the geometry of display [_screen_num]
    when that is less than the screen count and of display 0 otherwise,
    sets the flags [Window | FramelessWindowHint], zeroes the margins,
    moves the window to the origin of that display and resizes it to the
    size of that display, shows it fullscreen and sets [_is_fullscreen];
    the calls are made in this order.  The window takes the size of the
    display bounded below by its minimum size 640x480: it covers the
    display exactly when the display is at least that large. *)
Theorem toggle_fullscreen_enters (E : Engine) (w : World) (m : Media) :
  _media (pw w) = Some m ->
  _is_fullscreen (pw w) = false ->
  let target :=
    if _screen_num (panel w) <? screenCount (desktop w)
    then _screen_num (panel w) else 0 in
  let g := screenGeometry (desktop w) target in
  exists w',
    toggle_fullscreen_action w = Ok tt w' /\
    (_wnd_x (pw w'), _wnd_y (pw w')) = (Some (x (win w)), Some (y (win w))) /\
    (_wnd_w (pw w'), _wnd_h (pw w'))
      = (Some (width (win w)), Some (height (win w))) /\
    _wnd_flags (pw w') = Some (windowFlags (win w)) /\
    _ly_margins (pw w') = Some (contentsMargins (win w)) /\
    (x (win w'), y (win w')) = (rect_x g, rect_y g) /\
    (width (win w'), height (win w'))
      = (Z.max minimumWidth (rect_width g),
         Z.max minimumHeight (rect_height g)) /\
    (minimumWidth <= rect_width g -> minimumHeight <= rect_height g ->
     (x (win w'), y (win w'), width (win w'), height (win w'))
       = (rect_x g, rect_y g, rect_width g, rect_height g)) /\
    windowFlags (win w') = Z.lor Qt_Window Qt_FramelessWindowHint /\
    contentsMargins (win w') = mkMargins 0 0 0 0 /\
    isHidden (win w') = false /\
    isFullScreen (win w') = true /\
    _is_fullscreen (pw w') = true /\
    _media (pw w') = _media (pw w) /\
    log w' = log w ++
      [Self_hide; Self_x; Self_y; Self_width; Self_height; Self_windowFlags;
       Layout_contentsMargins; Desktop_screenCount;
       Desktop_screenGeometry target;
       Self_setWindowFlags (Z.lor Qt_Window Qt_FramelessWindowHint);
       Layout_setContentsMargins 0 0 0 0;
       Self_move (rect_x g) (rect_y g);
       Self_resize (rect_width g) (rect_height g);
       Self_showFullScreen].
Proof.
  intros Hm Hfs target g.
  eexists. split.
  - apply (toggle_fullscreen_windowed E w m Hm Hfs).
  - cbn -[Z.max]. rewrite Hm.
    repeat match goal with |- _ /\ _ => split end; try reflexivity.
    intros Hw Hh. unfold width, height. cbn -[Z.max].
    rewrite !Z.max_r by assumption. reflexivity.
Qed.

Lemma toggle_fullscreen_enters_witness :
  exists w',
    toggle_fullscreen_action w_opened = Ok tt w' /\
    (_wnd_x (pw w'), _wnd_y (pw w')) = (Some 100, Some 80) /\
    (x (win w'), y (win w'), width (win w'), height (win w'))
      = (1920, 0, 1280, 1024) /\
    _is_fullscreen (pw w') = true.
Proof.
  destruct (toggle_fullscreen_enters simple_engine w_opened
              (mkMedia 0 "a.mp4") eq_refl eq_refl)
    as (w' & Hrun & Hpos & _ & _ & _ & _ & _ & Hgeo & _ & _ & _ & _ & Hfs & _).
  exists w'. split; [exact Hrun|]. split; [exact Hpos|].
  split; [|exact Hfs].
  apply Hgeo; [vm_compute; discriminate | vm_compute; discriminate].
Defined.

(** The way back: on a fullscreen slot with a media whose saved geometry
    is there, the toggle puts the saved flags, margins, position and size
    back, shows the window normal and clears [_is_fullscreen]. *)
Lemma toggle_fullscreen_leaves (E : Engine) (w : World) (m : Media)
      (sx sy sw sh sf : Z) (sm : QMargins) :
  _media (pw w) = Some m ->
  _is_fullscreen (pw w) = true ->
  _wnd_x (pw w) = Some sx -> _wnd_y (pw w) = Some sy ->
  _wnd_w (pw w) = Some sw -> _wnd_h (pw w) = Some sh ->
  _wnd_flags (pw w) = Some sf -> _ly_margins (pw w) = Some sm ->
  toggle_fullscreen_action w =
  Ok tt (mkWorld
           (put_is_fullscreen false (pw w))
           (mkQWidget sx sy sw sh sf sm false false (windowTitle (win w)))
           (panel w) (vlc w) (timer_active w) (desktop w) (next_media_id w)
           (log w ++
              [Self_hide; Self_setWindowFlags sf;
               Layout_setContentsMargins (left sm) (top sm) (right sm)
                                         (bottom sm);
               Self_move sx sy; Self_resize sw sh; Self_showNormal])).
Proof.
  intros Hm Hfs Hx Hy Hw Hh Hf Hmg.
  open_world w. subst. destruct sm.
  run. flatten_log. reflexivity.
Qed.

(** C1: on a windowed slot with a media, two toggles in a row return to
    the windowed state with the position, the size, the window flags and
    the content margins the window had before the first one. *)
Theorem toggle_fullscreen_twice_restores (E : Engine) (w : World) (m : Media) :
  _media (pw w) = Some m ->
  _is_fullscreen (pw w) = false ->
  exists w1 w2,
    toggle_fullscreen_action w = Ok tt w1 /\
    _is_fullscreen (pw w1) = true /\
    toggle_fullscreen_action w1 = Ok tt w2 /\
    _is_fullscreen (pw w2) = false /\
    (x (win w2), y (win w2)) = (x (win w), y (win w)) /\
    (width (win w2), height (win w2)) = (width (win w), height (win w)) /\
    windowFlags (win w2) = windowFlags (win w) /\
    contentsMargins (win w2) = contentsMargins (win w).
Proof.
  intros Hm Hfs.
  pose proof (toggle_fullscreen_windowed E w m Hm Hfs) as Hrun.
  cbv zeta in Hrun.
  eexists. eexists. split; [exact Hrun|]. split; [reflexivity|].
  split.
  - apply (toggle_fullscreen_leaves E _ m); reflexivity.
  - unfold width, height. cbn -[Z.max].
    repeat split; try reflexivity. f_equal; lia.
Qed.

Lemma toggle_fullscreen_twice_restores_witness :
  exists w1 w2,
    toggle_fullscreen_action w_opened = Ok tt w1 /\
    toggle_fullscreen_action w1 = Ok tt w2 /\
    (x (win w2), y (win w2)) = (100, 80) /\
    (width (win w2), height (win w2)) = (640, 480) /\
    windowFlags (win w2) = Qt_Window /\
    contentsMargins (win w2) = mkMargins 11 11 11 11.
Proof.
  destruct (toggle_fullscreen_twice_restores simple_engine w_opened
              (mkMedia 0 "a.mp4") eq_refl eq_refl)
    as (w1 & w2 & H1 & _ & H2 & _ & Hp & Hs & Hf & Hm).
  exists w1, w2. repeat split; assumption.
Defined.

(** ** play_pause_action *)

(** The player is not playing and refuses to play: the method returns
    after the two engine calls. *)
Lemma play_pause_refused (E : Engine) (w : World) :
  is_playing (vlc w) = false ->
  fst (play (vlc w)) = -1 ->
  play_pause_action w =
  Ok tt (mkWorld (pw w) (win w) (panel w) (snd (play (vlc w)))
                 (timer_active w) (desktop w) (next_media_id w)
                 (log w ++ [Vlc_is_playing; Vlc_play])).
Proof.
  intros Hplaying Hplay.
  open_world w. run. rewrite Hplaying. run. rewrite Hplay.
  flatten_log. reflexivity.
Qed.

(** C3: when the player reports that it is not playing and the play
    request fails, [play_pause_action] returns and nothing of the slot
    has changed: not the label, not the visibility of the window, not the
    timer, which is not started. *)
Theorem play_pause_failed_play (E : Engine) (w : World) :
  is_playing (vlc w) = false ->
  fst (play (vlc w)) = -1 ->
  exists w',
    play_pause_action w = Ok tt w' /\
    _play_pause_button (panel w') = _play_pause_button (panel w) /\
    isHidden (win w') = isHidden (win w) /\
    timer_active w' = timer_active w /\
    pw w' = pw w /\ win w' = win w /\ panel w' = panel w /\
    log w' = log w ++ [Vlc_is_playing; Vlc_play].
Proof.
  intros Hplaying Hplay. eexists. split.
  - apply play_pause_refused; assumption.
  - cbn. repeat split; reflexivity.
Qed.

Lemma play_pause_failed_play_witness :
  exists w',
    play_pause_action w_start = Ok tt w' /\
    _play_pause_button (panel w') = "Play" /\
    isHidden (win w') = true /\
    timer_active w' = false.
Proof.
  destruct (play_pause_failed_play simple_engine w_start eq_refl eq_refl)
    as (w' & Hrun & Hlabel & Hhidden & Htimer & _).
  exists w'. repeat split; assumption.
Defined.

(** ** release_media, close_action *)

Lemma release_media_some (E : Engine) (w : World) (m : Media) :
  _media (pw w) = Some m ->
  release_media w =
  Ok tt (mkWorld (put_media None (pw w)) (win w)
                 (put_button_text "Play" (panel w))
                 (set_media None (stop (vlc w)))
                 (timer_active w) (desktop w) (next_media_id w)
                 (log w ++ [Vlc_stop; Button_setText "Play";
                            Vlc_set_media None])).
Proof.
  intros Hm. open_world w. subst. run. flatten_log. reflexivity.
Qed.

Lemma release_media_none (E : Engine) (w : World) :
  _media (pw w) = None -> release_media w = Ok tt w.
Proof.
  intros Hm. open_world w. subst. run. reflexivity.
Qed.

Lemma close_action_none (E : Engine) (w : World) :
  _media (pw w) = None -> close_action w = Ok tt w.
Proof.
  intros Hm. open_world w. subst. run. reflexivity.
Qed.

(** With a media, [close_action] is the toggle when fullscreen, then
    [hide], then [release_media]. *)
Lemma close_action_some (E : Engine) (w : World) (m : Media) :
  _media (pw w) = Some m ->
  close_action w =
  ((if _is_fullscreen (pw w) then toggle_fullscreen_action else ret tt) ;;
   self_hide ;; release_media) w.
Proof.
  intros Hm. open_world w. subst. reflexivity.
Qed.

Lemma wf_saved_geometry (E : Engine) (w : World) :
  wf w = true ->
  _is_fullscreen (pw w) = true ->
  exists sx sy sw sh sf sm,
    _wnd_x (pw w) = Some sx /\ _wnd_y (pw w) = Some sy /\
    _wnd_w (pw w) = Some sw /\ _wnd_h (pw w) = Some sh /\
    _wnd_flags (pw w) = Some sf /\ _ly_margins (pw w) = Some sm.
Proof.
  intros Hwf Hfs. unfold wf, saved_geometry in Hwf. rewrite Hfs in Hwf.
  destruct (_wnd_x (pw w)) as [sx|]; [|discriminate].
  destruct (_wnd_y (pw w)) as [sy|]; [|discriminate].
  destruct (_wnd_w (pw w)) as [sw|]; [|discriminate].
  destruct (_wnd_h (pw w)) as [sh|]; [|discriminate].
  destruct (_wnd_flags (pw w)) as [sf|]; [|discriminate].
  destruct (_ly_margins (pw w)) as [sm|]; [|discriminate].
  exists sx, sy, sw, sh, sf, sm. repeat split; reflexivity.
Qed.

(** C4: without a media [close_action] returns and the world is the one
    it started in.  With a media (in a well-formed state) it first makes
    the fullscreen-to-windowed toggle when the slot is fullscreen, then
    hides the window, then stops the player, detaches the media from it
    and drops [_media], in this order. *)
Theorem close_action_spec (E : Engine) (w : World) :
  (_media (pw w) = None -> close_action w = Ok tt w) /\
  (forall m, _media (pw w) = Some m -> wf w = true ->
     exists w1 w',
       (if _is_fullscreen (pw w)
        then toggle_fullscreen_action w = Ok tt w1
             /\ _is_fullscreen (pw w1) = false
             /\ isFullScreen (win w1) = false
             /\ Some (windowFlags (win w1)) = _wnd_flags (pw w)
        else w1 = w) /\
       close_action w = Ok tt w' /\
       log w' = log w1 ++ [Self_hide; Vlc_stop; Button_setText "Play";
                           Vlc_set_media None] /\
       isHidden (win w') = true /\
       vlc w' = set_media None (stop (vlc w1)) /\
       _media (pw w') = None /\
       _is_fullscreen (pw w') = false).
Proof.
  split; [apply close_action_none|].
  intros m Hm Hwf. rewrite (close_action_some E w m Hm).
  destruct (_is_fullscreen (pw w)) eqn:Hfs.
  - destruct (wf_saved_geometry E w Hwf Hfs)
      as (sx & sy & sw & sh & sf & sm & Hx & Hy & Hw & Hh & Hf & Hmg).
    pose proof (toggle_fullscreen_leaves E w m sx sy sw sh sf sm
                  Hm Hfs Hx Hy Hw Hh Hf Hmg) as Hrun.
    unfold bind at 1. rewrite Hrun.
    open_world w. subst.
    eexists. eexists. split.
    + repeat split; reflexivity.
    + run. flatten_log. repeat split; reflexivity.
  - open_world w. subst.
    eexists. eexists. split; [reflexivity|].
    run. flatten_log. repeat split; reflexivity.
Qed.

Lemma close_action_spec_witness :
  close_action w_start = Ok tt w_start /\
  exists w1 w',
    toggle_fullscreen_action w_fullscreen = Ok tt w1 /\
    close_action w_fullscreen = Ok tt w' /\
    log w' = log w1 ++ [Self_hide; Vlc_stop; Button_setText "Play";
                        Vlc_set_media None] /\
    isHidden (win w') = true /\
    _media (pw w') = None.
Proof.
  destruct (close_action_spec simple_engine w_start) as [Hnone _].
  destruct (close_action_spec simple_engine w_fullscreen) as [_ Hsome].
  assert (Hm : _media (pw w_fullscreen) = Some (mkMedia 0 "a.mp4"))
    by (vm_compute; reflexivity).
  assert (Hwf : wf w_fullscreen = true) by (vm_compute; reflexivity).
  assert (Hfs : _is_fullscreen (pw w_fullscreen) = true)
    by (vm_compute; reflexivity).
  destruct (Hsome (mkMedia 0 "a.mp4") Hm Hwf)
    as (w1 & w' & Htoggle & Hrun & Hlog & Hhidden & _ & Hmedia & _).
  rewrite Hfs in Htoggle. destruct Htoggle as [Htoggle _].
  split; [exact (Hnone eq_refl)|].
  exists w1, w'. repeat split; assumption.
Defined.

(** ** open_action *)

Lemma slider_bound_inside (lo v hi : Z) :
  lo <= v <= hi -> slider_bound lo v hi = v.
Proof. unfold slider_bound. lia. Qed.

Lemma wf_parts (E : Engine) (w : World) :
  wf w = true ->
  (forall m, _media (pw w) = Some m -> (media_id m < next_media_id w)%nat) /\
  _volume_slider (panel w) = _volume (pw w) /\
  0 <= _volume (pw w) <= 100.
Proof.
  unfold wf. intros H.
  apply andb_prop in H. destruct H as [H H100].
  apply andb_prop in H. destruct H as [H H0].
  apply andb_prop in H. destruct H as [H Hslider].
  apply andb_prop in H. destruct H as [_ Hmedia].
  split; [|split].
  - intros m Hm. rewrite Hm in Hmedia. apply Nat.ltb_lt. exact Hmedia.
  - apply Z.eqb_eq. exact Hslider.
  - split; [apply Z.leb_le; exact H0 | apply Z.leb_le; exact H100].
Qed.



(** ** set_volume_action *)

(** C6: [set_volume_action v] stores [v] in [_volume] whether or not
    there is a media.  Without a media nothing else happens: no call is
    made and the player is untouched.  With a media the one call made is
    [audio_set_volume v] on the player, so a player that answers a volume
    query with the volume last set answers [v]. *)
Theorem set_volume_action_spec (E : Engine) (w : World) (v : Z) :
  0 <= v <= 100 ->
  exists w',
    set_volume_action v w = Ok tt w' /\
    _volume (pw w') = v /\
    (_media (pw w) = None -> w' = on_pw (put_volume v) w) /\
    (forall m, _media (pw w) = Some m ->
       w' = logged [Vlc_audio_set_volume v]
              (on_vlc (audio_set_volume v) (on_pw (put_volume v) w)) /\
       vlc w' = audio_set_volume v (vlc w) /\
       ((forall p, audio_get_volume (audio_set_volume v p) = v) ->
        audio_get_volume (vlc w') = v)).
Proof.
  intros _. open_world w. destruct _media0 as [m|].
  - eexists. split; [run; reflexivity|]. cbn.
    split; [reflexivity|]. split; [discriminate|].
    intros _ _. split; [reflexivity|]. split; [reflexivity|].
    intros Hlaw. apply Hlaw.
  - eexists. split; [run; reflexivity|]. cbn.
    split; [reflexivity|]. split; [reflexivity|]. discriminate.
Qed.

Lemma set_volume_action_spec_witness :
  exists w',
    set_volume_action 40 w_opened = Ok tt w' /\
    _volume (pw w') = 40 /\
    audio_get_volume (vlc w') = 40.
Proof.
  assert (Hrange : 0 <= 40 <= 100) by lia.
  destruct (set_volume_action_spec simple_engine w_opened 40 Hrange)
    as (w' & Hrun & Hvol & _ & Hsome).
  destruct (Hsome (mkMedia 0 "a.mp4") eq_refl) as (_ & _ & Hnative).
  exists w'. repeat split; [exact Hrun | exact Hvol |].
  apply Hnative. reflexivity.
Defined.

(** ** set_position_action *)

Lemma set_position_action_none (E : Engine) (w : World) :
  _media (pw w) = None -> set_position_action w = Ok tt w.
Proof.
  intros Hm. open_world w. subst. run. reflexivity.
Qed.

(** C7: without a media [set_position_action] returns in the world it
    started in.  With a media it stops the timer, reads the position
    slider, sets position [value / 1000.0] on the player and starts the
    timer, in this order; slider value 500 gives position 0.5. *)
Theorem set_position_action_spec (E : Engine) (w : World) :
  (_media (pw w) = None -> set_position_action w = Ok tt w) /\
  (forall m, _media (pw w) = Some m ->
     let value := _position_slider (panel w) in
     let target := PrimFloat.div (float_of_int value) 1000%float in
     set_position_action w =
       Ok tt (logged [Timer_stop; PositionSlider_value;
                      Vlc_set_position target; Timer_start]
                (with_timer true (on_vlc (set_position target) w))) /\
     (value = 500 -> target = 0.5%float)).
Proof.
  split; [apply set_position_action_none|].
  intros m Hm value target. subst value target. split.
  - open_world w. subst. run. flatten_log. reflexivity.
  - intros ->. reflexivity.
Qed.

Lemma set_position_action_spec_witness :
  set_position_action w_seek =
  Ok tt (logged [Timer_stop; PositionSlider_value;
                 Vlc_set_position 0.5%float; Timer_start]
           (with_timer true (on_vlc (set_position 0.5%float) w_seek))).
Proof.
  destruct (set_position_action_spec simple_engine w_seek) as [_ Hsome].
  destruct (Hsome (mkMedia 0 "a.mp4") eq_refl) as [Hrun Hhalf].
  cbv zeta in Hrun, Hhalf.
  rewrite (Hhalf eq_refl) in Hrun. exact Hrun.
Defined.

(** ** update_ui *)

(** On a slot whose position can be read, [update_ui] returns and leaves
    [update_ui_slot] behind; of what the slots share it touches the log
    and, through a seek, the timer. *)
Lemma update_ui_enter (E : Engine) (s : Slot) (mw : MainWindow) :
  (_media (slot_pw s) <> None -> exists n, position_read (slot_vlc s) = inr n) ->
  exists calls,
    update_ui (enter s mw) =
    Ok tt (enter (update_ui_slot s)
             (mkMainWindow (_controls mw) (_timer mw || update_ui_seeks s)
                           (mw_desktop mw) (mw_next_media_id mw)
                           (mw_log mw ++ calls))).
Proof.
  intros Hread.
  destruct s as [p q c v], mw as [cs t d nx l].
  destruct p as [media vol sx sy sw sh sf sm fs].
  destruct c as [num text vs pos down].
  unfold update_ui_slot, update_ui_seeks, shown_slot, refresh_seeks,
    refreshed, enter.
  cbn [slot_pw slot_win slot_panel slot_vlc _media _controls _timer
       mw_desktop mw_next_media_id mw_log _position_slider isSliderDown] in *.
  destruct media as [m|].
  - destruct Hread as [n Hn]; [discriminate|]. rewrite Hn.
    unfold position_read in Hn. run. rewrite Hn. run.
    destruct (Z.eqb_spec (slider_bound 0 n 1000) pos) as [Heq|Hneq].
    + eexists. run. flatten_log. cbn. rewrite orb_false_r, Heq. reflexivity.
    + destruct down; eexists; run; flatten_log; cbn;
        rewrite ?orb_false_r, ?orb_true_r; reflexivity.
  - run. destruct (Z.eqb_spec (slider_bound 0 0 1000) pos) as [Heq|Hneq].
    + subst pos. eexists. run. flatten_log. cbn. rewrite orb_false_r.
      reflexivity.
    + destruct down; eexists; run; flatten_log; cbn;
        rewrite ?orb_false_r, ?andb_false_r; reflexivity.
Qed.

Lemma slot_of_enter (E : Engine) (s : Slot) (mw : MainWindow) :
  slot_of (enter s mw) = s.
Proof. destruct s. reflexivity. Qed.

(** The loop of [MainWindow.update_ui], from any point of the list on. *)
Lemma for_controls_update_ui (E : Engine) (todo : list Slot) :
  forall (done : list Slot) (mw : MainWindow),
    _controls mw = done ++ todo ->
    (forall s, In s todo ->
       _media (slot_pw s) <> None ->
       exists n, position_read (slot_vlc s) = inr n) ->
    exists calls,
      for_controls update_ui done todo mw =
      inr (mkMainWindow (done ++ map update_ui_slot todo)
             (_timer mw || existsb update_ui_seeks todo)
             (mw_desktop mw) (mw_next_media_id mw) (mw_log mw ++ calls)).
Proof.
  induction todo as [|s rest IH]; intros done mw Hcontrols Hread.
  - exists []. cbn. rewrite app_nil_r in *. destruct mw. cbn in *.
    subst. rewrite app_nil_r, orb_false_r. reflexivity.
  - destruct (update_ui_enter E s mw (Hread s (or_introl eq_refl)))
      as [calls1 Hrun].
    cbn [for_controls]. rewrite Hrun. rewrite slot_of_enter.
    edestruct (IH (done ++ [update_ui_slot s])) as [calls2 Hrest];
      [| | rewrite Hrest].
    + cbn. rewrite <- app_assoc. reflexivity.
    + intros s' Hin. apply Hread. right. exact Hin.
    + exists (calls1 ++ calls2). cbn.
      rewrite <- !app_assoc, orb_assoc. reflexivity.
Qed.

(** What [update_ui_slot] shows. *)
Lemma update_ui_slot_shows (E : Engine) (s : Slot) :
  match _media (slot_pw s) with
  | None =>
      _position_slider (slot_panel (update_ui_slot s)) = 0 /\
      _play_pause_button (slot_panel (update_ui_slot s)) = "Play"
  | Some _ =>
      forall n, position_read (slot_vlc s) = inr n ->
        _position_slider (slot_panel (update_ui_slot s))
          = slider_bound 0 n 1000 /\
        (0 <= n <= 1000 ->
         _position_slider (slot_panel (update_ui_slot s)) = n) /\
        _play_pause_button (slot_panel (update_ui_slot s))
          = if is_playing (slot_vlc s) then "Pause" else "Play"
  end.
Proof.
  unfold update_ui_slot. destruct (_media (slot_pw s)).
  - intros n Hn. rewrite Hn. cbn. split; [reflexivity|].
    split; [|reflexivity]. intros Hrange.
    apply slider_bound_inside. exact Hrange.
  - cbn. split; reflexivity.
Qed.

(** C8 as the specification words it fails: the position shown is
    [int(position * 1000)], a truncation, not [round(position * 1000)].
    The first panel of [mw_sample] plays at position 1/1024; the product
    is 0.9765625, which rounds to 1, and the tick shows 0. *)
Lemma update_ui_round_counterexample :
  exists s mw' s',
    nth_error (_controls mw_sample) 0 = Some s /\
    _media (slot_pw s) = Some (mkMedia 0 "a.mp4") /\
    get_position (slot_vlc s) = 0.0009765625%float /\
    py_round (PrimFloat.mul (get_position (slot_vlc s)) (float_of_int 1000))
      = inr 1 /\
    MainWindow_update_ui mw_sample = inr mw' /\
    nth_error (_controls mw') 0 = Some s' /\
    _position_slider (slot_panel s') = 0.
Proof.
  eexists. eexists. eexists.
  split; [reflexivity|].
  split; [vm_compute; reflexivity|].
  split; [vm_compute; reflexivity|].
  split; [vm_compute; reflexivity|].
  split; [vm_compute; reflexivity|].
  split; reflexivity.
Qed.

(** C8, amended: on a tick, when the position of every panel that has a
    media can be converted by [int], [MainWindow.update_ui] returns and
    each panel without a media shows position 0 and label "Play"; each
    panel with a media shows [int(position * 1000)], the product cut
    toward zero, as the position slider keeps it (inside 0..1000, so the
    value itself when it lies there), and label "Pause" when the player
    reports that it plays, "Play" otherwise. *)
Theorem MainWindow_update_ui_shows (E : Engine) (mw : MainWindow) :
  (forall s, In s (_controls mw) ->
     _media (slot_pw s) <> None ->
     exists n, position_read (slot_vlc s) = inr n) ->
  exists mw',
    MainWindow_update_ui mw = inr mw' /\
    forall i s, nth_error (_controls mw) i = Some s ->
      exists s',
        nth_error (_controls mw') i = Some s' /\
        match _media (slot_pw s) with
        | None =>
            _position_slider (slot_panel s') = 0 /\
            _play_pause_button (slot_panel s') = "Play"
        | Some _ =>
            forall n,
              py_int (PrimFloat.mul (get_position (slot_vlc s))
                                    (float_of_int 1000)) = inr n ->
              _position_slider (slot_panel s') = slider_bound 0 n 1000 /\
              (0 <= n <= 1000 -> _position_slider (slot_panel s') = n) /\
              _play_pause_button (slot_panel s')
                = if is_playing (slot_vlc s) then "Pause" else "Play"
        end.
Proof.
  intros Hread.
  destruct (for_controls_update_ui E (_controls mw) [] mw eq_refl Hread)
    as [calls Hrun].
  eexists. split; [exact Hrun|].
  intros i s Hi. exists (update_ui_slot s). split.
  - cbn. apply map_nth_error. exact Hi.
  - apply (update_ui_slot_shows E s).
Qed.

Lemma MainWindow_update_ui_shows_witness :
  exists mw',
    MainWindow_update_ui mw_sample = inr mw' /\
    map (fun s => (_position_slider (slot_panel s),
                   _play_pause_button (slot_panel s))) (_controls mw')
      = [(0, "Pause"); (0, "Play"); (0, "Play"); (0, "Play")].
Proof.
  assert (Hread : forall s, In s (_controls mw_sample) ->
            _media (slot_pw s) <> None ->
            exists n, position_read (slot_vlc s) = inr n).
  { intros s Hin _. cbn in Hin.
    destruct Hin as [<-|[<-|[<-|[<-|[]]]]]; exists 0;
      vm_compute; reflexivity. }
  destruct (MainWindow_update_ui_shows simple_engine mw_sample Hread)
    as (mw' & Hrun & _).
  exists mw'. split; [exact Hrun|].
  assert (Hshown :
            match MainWindow_update_ui mw_sample with
            | inr r =>
                map (fun s => (_position_slider (slot_panel s),
                               _play_pause_button (slot_panel s)))
                    (_controls r)
                = [(0, "Pause"); (0, "Play"); (0, "Play"); (0, "Play")]
            | inl _ => False
            end)
    by (vm_compute; reflexivity).
  rewrite Hrun in Hshown. exact Hshown.
Defined.

(** ** The fullscreen fields and who writes them *)

(** Runs a method on an opened world through each of its branches. *)
Ltac branches :=
  run;
  repeat (match goal with
          | |- context [if ?b then _ else _] => destruct b
          | |- context [match ?o with Some _ => _ | None => _ end] =>
              destruct o
          | |- context [match ?o with inl _ => _ | inr _ => _ end] =>
              destruct o
          end; run).

Lemma open_action_frame (E : Engine) (w : World) (filename : string) :
  fullscreen_fields (world_of (open_action filename w)) = fullscreen_fields w.
Proof.
  unfold fullscreen_fields. open_world w. branches; reflexivity.
Qed.

Lemma play_pause_action_frame (E : Engine) (w : World) :
  fullscreen_fields (world_of (play_pause_action w)) = fullscreen_fields w.
Proof.
  unfold fullscreen_fields. open_world w. branches; reflexivity.
Qed.

Lemma stop_action_frame (E : Engine) (w : World) :
  fullscreen_fields (world_of (stop_action w)) = fullscreen_fields w.
Proof.
  unfold fullscreen_fields. open_world w. branches; reflexivity.
Qed.

Lemma set_volume_action_frame (E : Engine) (w : World) (v : Z) :
  fullscreen_fields (world_of (set_volume_action v w)) = fullscreen_fields w.
Proof.
  unfold fullscreen_fields. open_world w. branches; reflexivity.
Qed.

Lemma set_position_action_frame (E : Engine) (w : World) :
  fullscreen_fields (world_of (set_position_action w)) = fullscreen_fields w.
Proof.
  unfold fullscreen_fields. open_world w. branches; reflexivity.
Qed.

Lemma close_action_windowed_frame (E : Engine) (w : World) :
  _is_fullscreen (pw w) = false ->
  fullscreen_fields (world_of (close_action w)) = fullscreen_fields w.
Proof.
  intros Hfs. unfold fullscreen_fields. open_world w. subst.
  branches; reflexivity.
Qed.

Lemma close_action_fullscreen (E : Engine) (w : World) (m : Media) :
  _media (pw w) = Some m ->
  _is_fullscreen (pw w) = true ->
  wf w = true ->
  _is_fullscreen (pw (world_of (close_action w))) = false.
Proof.
  intros Hm Hfs Hwf. rewrite (close_action_some E w m Hm). rewrite Hfs.
  destruct (wf_saved_geometry E w Hwf Hfs)
    as (sx & sy & sw & sh & sf & sm & Hx & Hy & Hw & Hh & Hf & Hmg).
  unfold bind at 1.
  rewrite (toggle_fullscreen_leaves E w m sx sy sw sh sf sm
             Hm Hfs Hx Hy Hw Hh Hf Hmg).
  open_world w. subst. run. reflexivity.
Qed.

(** C10: [open_action], [play_pause_action], [stop_action],
    [set_volume_action] and [set_position_action] leave [_is_fullscreen]
    and the saved position, size, flags and margins as they were, however
    they end.  [toggle_fullscreen_action] writes them (on a windowed slot
    with a media it sets the flag and saves the geometry of the window),
    and [close_action] writes them only through the toggle: on a windowed
    slot it leaves them alone, on a fullscreen one it clears the flag. *)
Theorem fullscreen_fields_frame (E : Engine) (w : World) :
  (forall filename,
     fullscreen_fields (world_of (open_action filename w))
       = fullscreen_fields w) /\
  fullscreen_fields (world_of (play_pause_action w)) = fullscreen_fields w /\
  fullscreen_fields (world_of (stop_action w)) = fullscreen_fields w /\
  (forall v,
     fullscreen_fields (world_of (set_volume_action v w))
       = fullscreen_fields w) /\
  fullscreen_fields (world_of (set_position_action w)) = fullscreen_fields w /\
  (forall m, _media (pw w) = Some m -> _is_fullscreen (pw w) = false ->
     fullscreen_fields (world_of (toggle_fullscreen_action w))
       = (true, Some (x (win w)), Some (y (win w)), Some (width (win w)),
          Some (height (win w)), Some (windowFlags (win w)),
          Some (contentsMargins (win w)))) /\
  (_is_fullscreen (pw w) = false ->
     fullscreen_fields (world_of (close_action w)) = fullscreen_fields w) /\
  (forall m, _media (pw w) = Some m -> _is_fullscreen (pw w) = true ->
     wf w = true ->
     _is_fullscreen (pw (world_of (close_action w))) = false).
Proof.
  split; [intros filename; apply open_action_frame|].
  split; [apply play_pause_action_frame|].
  split; [apply stop_action_frame|].
  split; [intros v; apply set_volume_action_frame|].
  split; [apply set_position_action_frame|].
  split.
  - intros m Hm Hfs.
    rewrite (toggle_fullscreen_windowed E w m Hm Hfs). reflexivity.
  - split; [apply close_action_windowed_frame|].
    apply close_action_fullscreen.
Qed.

Lemma fullscreen_fields_frame_witness :
  fullscreen_fields (world_of (open_action "b.mp4" w_fullscreen))
    = fullscreen_fields w_fullscreen /\
  fullscreen_fields (world_of (toggle_fullscreen_action w_opened))
    = (true, Some 100, Some 80, Some 640, Some 480, Some Qt_Window,
       Some (mkMargins 11 11 11 11)) /\
  _is_fullscreen (pw (world_of (close_action w_fullscreen))) = false.
Proof.
  destruct (fullscreen_fields_frame simple_engine w_fullscreen)
    as (Hopen & _ & _ & _ & _ & _ & _ & Hclose).
  destruct (fullscreen_fields_frame simple_engine w_opened)
    as (_ & _ & _ & _ & _ & Htoggle & _).
  assert (Hm : _media (pw w_fullscreen) = Some (mkMedia 0 "a.mp4"))
    by (vm_compute; reflexivity).
  assert (Hfs : _is_fullscreen (pw w_fullscreen) = true)
    by (vm_compute; reflexivity).
  assert (Hwf : wf w_fullscreen = true) by (vm_compute; reflexivity).
  split; [apply Hopen|].
  split; [exact (Htoggle (mkMedia 0 "a.mp4") eq_refl eq_refl)|].
  exact (Hclose (mkMedia 0 "a.mp4") Hm Hfs Hwf).
Defined.

(** ** Well-formedness is an invariant *)

Lemma wf_iff (E : Engine) (w : World) :
  wf w = true <->
  (_is_fullscreen (pw w) = true -> saved_geometry (pw w) = true) /\
  (forall m, _media (pw w) = Some m -> (media_id m < next_media_id w)%nat) /\
  _volume_slider (panel w) = _volume (pw w) /\
  0 <= _volume (pw w) <= 100.
Proof.
  unfold wf. rewrite !andb_true_iff, orb_true_iff, negb_true_iff.
  rewrite Z.eqb_eq, !Z.leb_le. split.
  - intros ((((Hfs & Hm) & Hs) & H0) & H100).
    split; [|split; [|split]]; try assumption; try lia.
    + intros Htrue. destruct Hfs as [Hfs|Hfs]; [congruence|exact Hfs].
    + intros m Heq. rewrite Heq in Hm. apply Nat.ltb_lt. exact Hm.
  - intros (Hfs & Hm & Hs & Hr).
    repeat split; try assumption; try lia.
    + destruct (_is_fullscreen (pw w)); [right; apply Hfs; reflexivity|].
      left. reflexivity.
    + destruct (_media (pw w)) as [m|]; [|reflexivity].
      apply Nat.ltb_lt. apply Hm. reflexivity.
Qed.

(** Closes the four parts of [wf] after a method was run through its
    branches. *)
Ltac wf_parts_done :=
  unfold saved_geometry in *; cbn in *;
  repeat match goal with
         | |- _ /\ _ => split
         | |- forall _, _ => intro
         end;
  try discriminate; try assumption; try reflexivity; try lia;
  try solve [auto];
  try match goal with
      | H : Some _ = Some _ |- _ => injection H as <-; cbn; lia
      end;
  try match goal with
      | Hm : forall m, Some ?a = Some m -> _, H : Some ?a = Some _ |- _ =>
          injection H as <-; specialize (Hm a eq_refl); lia
      end;
  try (unfold slider_bound; lia).

Ltac wf_method :=
  let H := fresh "H" in
  intros H; apply wf_iff in H; apply wf_iff;
  let Hs := fresh "Hs" in
  let Hm := fresh "Hm" in
  let Hv := fresh "Hv" in
  let Hr := fresh "Hr" in
  destruct H as (Hs & Hm & Hv & Hr).

Lemma open_action_wf (E : Engine) (w : World) (filename : string) :
  wf w = true -> wf (world_of (open_action filename w)) = true.
Proof.
  wf_method. open_world w. branches; wf_parts_done.
Qed.

Lemma volume_slider_moved_wf (E : Engine) (w : World) (v : Z) :
  wf w = true -> wf (world_of (volume_slider_moved v w)) = true.
Proof.
  wf_method. open_world w. branches; wf_parts_done.
Qed.

Lemma position_slider_moved_wf (E : Engine) (w : World) (v : Z) :
  wf w = true -> wf (world_of (position_slider_moved v w)) = true.
Proof.
  wf_method. open_world w. branches; wf_parts_done.
Qed.

Lemma position_slider_pressed_wf (E : Engine) (w : World) :
  wf w = true -> wf (world_of (position_slider_pressed w)) = true.
Proof.
  wf_method. open_world w. branches; wf_parts_done.
Qed.

Lemma position_slider_released_wf (E : Engine) (w : World) :
  wf w = true -> wf (world_of (position_slider_released w)) = true.
Proof.
  wf_method. open_world w. branches; wf_parts_done.
Qed.

Lemma close_action_wf (E : Engine) (w : World) :
  wf w = true -> wf (world_of (close_action w)) = true.
Proof.
  wf_method. open_world w. branches; wf_parts_done.
Qed.

Lemma play_pause_action_wf (E : Engine) (w : World) :
  wf w = true -> wf (world_of (play_pause_action w)) = true.
Proof.
  wf_method. open_world w. branches; wf_parts_done.
Qed.

Lemma stop_action_wf (E : Engine) (w : World) :
  wf w = true -> wf (world_of (stop_action w)) = true.
Proof.
  wf_method. open_world w. branches; wf_parts_done.
Qed.

Lemma toggle_fullscreen_action_wf (E : Engine) (w : World) :
  wf w = true -> wf (world_of (toggle_fullscreen_action w)) = true.
Proof.
  wf_method. open_world w. branches; wf_parts_done.
Qed.

Lemma update_ui_wf (E : Engine) (w : World) :
  wf w = true -> wf (world_of (update_ui w)) = true.
Proof.
  wf_method. open_world w. branches; wf_parts_done.
Qed.

Lemma step_wf (E : Engine) (w w' : World) :
  step w w' -> wf w = true -> wf w' = true.
Proof.
  intros Hstep.
  destruct Hstep as [v w|w|v w|w|filename w|w|w|w|w|w|w w' Hpw Hvs Hn].
  - apply volume_slider_moved_wf.
  - apply position_slider_pressed_wf.
  - apply position_slider_moved_wf.
  - apply position_slider_released_wf.
  - apply open_action_wf.
  - apply close_action_wf.
  - apply play_pause_action_wf.
  - apply stop_action_wf.
  - apply toggle_fullscreen_action_wf.
  - apply update_ui_wf.
  - intros H. apply wf_iff in H. apply wf_iff.
    destruct H as (Hs & Hm & Hv & Hr). rewrite Hpw, Hvs.
    repeat split; try assumption; try lia.
    intros m Heq. specialize (Hm m Heq). lia.
Qed.

Lemma World_init_wf (E : Engine) (q : QWidget) (p : player) (d : QDesktop)
      (screen_num : Z) :
  wf (World_init q p d screen_num) = true.
Proof. reflexivity. Qed.

(** Every state a slot can reach from start-up is well-formed. *)
Lemma reachable_wf (E : Engine) (q : QWidget) (p : player) (d : QDesktop)
      (screen_num : Z) (w : World) :
  reachable (World_init q p d screen_num) w -> wf w = true.
Proof.
  induction 1 as [|w w' _ IH Hstep].
  - apply World_init_wf.
  - apply (step_wf E w w' Hstep IH).
Qed.

(** ** play_pause_action on a slot without a media *)

Lemma play_pause_action_pw (E : Engine) (w : World) :
  pw (world_of (play_pause_action w)) = pw w.
Proof. open_world w. branches; reflexivity. Qed.

Lemma lawful_step_idle (E : Engine) (idle : player -> Prop) (w w' : World) :
  IdleContract idle ->
  lawful_step idle w w' ->
  idle_without_media idle w -> idle_without_media idle w'.
Proof.
  intros C Hstep. unfold idle_without_media.
  destruct Hstep
    as [v w|w|v w|w|filename w|w|w|w|w|w|w w' Hpw _ _ Hidle].
  1-6, 9-10:
    intros H; open_world w; destruct _media0; branches; cbn;
    intros Hm; try discriminate; try (apply (idle_released idle C)); auto.
  - intros H. rewrite play_pause_action_pw. intros Hm. specialize (H Hm).
    rewrite (play_pause_refused E w (idle_not_playing idle C _ H)
               (idle_play_refused idle C _ H)).
    cbn. apply (idle_after_play idle C). exact H.
  - intros H. open_world w. run. intros Hm.
    apply (idle_after_stop idle C). auto.
  - rewrite Hpw. auto.
Qed.

Lemma lawful_reachable_idle (E : Engine) (idle : player -> Prop)
      (q : QWidget) (p : player) (d : QDesktop) (screen_num : Z) (w : World) :
  IdleContract idle ->
  idle p ->
  lawful_reachable idle (World_init q p d screen_num) w ->
  idle_without_media idle w.
Proof.
  intros C Hp Hreach. induction Hreach as [|w w' _ IH Hstep].
  - intros _. exact Hp.
  - apply (lawful_step_idle E idle w w' C Hstep IH).
Qed.

(** C9: on a slot without a media [play_pause_action] is a no-op.  The
    method does not look at [_media]; it asks the player, and a player
    without a media reports that it is not playing and refuses to play.
    So in every state the slot reaches from start-up with such a player,
    if the slot has no media the method returns after its two engine
    calls and the Python attributes, the window (so its visibility), the
    panel (so the label) and the timer are what they were. *)
Theorem play_pause_no_media_noop (E : Engine) (idle : player -> Prop)
        (q : QWidget) (p : player) (d : QDesktop) (screen_num : Z)
        (w : World) :
  IdleContract idle ->
  idle p ->
  lawful_reachable idle (World_init q p d screen_num) w ->
  _media (pw w) = None ->
  exists w',
    play_pause_action w = Ok tt w' /\
    pw w' = pw w /\
    isHidden (win w') = isHidden (win w) /\ win w' = win w /\
    _play_pause_button (panel w') = _play_pause_button (panel w) /\
    panel w' = panel w /\
    timer_active w' = timer_active w /\
    log w' = log w ++ [Vlc_is_playing; Vlc_play].
Proof.
  intros C Hp Hreach Hm.
  pose proof (lawful_reachable_idle E idle q p d screen_num w C Hp Hreach Hm)
    as Hidle.
  eexists. split.
  - apply play_pause_refused.
    + apply (idle_not_playing idle C). exact Hidle.
    + apply (idle_play_refused idle C). exact Hidle.
  - cbn. repeat split; reflexivity.
Qed.

Lemma simple_engine_contract : @IdleContract simple_engine simple_idle.
Proof.
  split; unfold simple_idle; cbn.
  - intros p. split; reflexivity.
  - intros p [_ Hplaying]. exact Hplaying.
  - intros p [Hmedia _]. rewrite Hmedia. reflexivity.
  - intros p [Hmedia Hplaying]. rewrite Hmedia. cbn. split; assumption.
  - intros p [Hmedia _]. split; [exact Hmedia|reflexivity].
Qed.

Lemma w_closed_lawful_reachable :
  @lawful_reachable simple_engine simple_idle w_start w_closed.
Proof.
  apply (@lawful_reachable_step simple_engine simple_idle _ w_opened).
  - apply (@lawful_reachable_step simple_engine simple_idle _ w_start).
    + apply lawful_reachable_init.
    + apply (@lawful_open simple_engine simple_idle "a.mp4" w_start).
  - apply (@lawful_close simple_engine simple_idle w_opened).
Qed.

Lemma play_pause_no_media_noop_witness :
  exists w',
    play_pause_action w_closed = Ok tt w' /\
    pw w' = pw w_closed /\ win w' = win w_closed /\
    panel w' = panel w_closed /\
    timer_active w' = timer_active w_closed.
Proof.
  assert (Hp : simple_idle sample_player) by (split; reflexivity).
  assert (Hm : _media (pw w_closed) = None) by (vm_compute; reflexivity).
  destruct (play_pause_no_media_noop simple_engine simple_idle sample_widget
              sample_player sample_desktop 1 w_closed
              simple_engine_contract Hp w_closed_lawful_reachable Hm)
    as (w' & Hrun & Hpw & _ & Hwin & _ & Hpanel & Htimer & _).
  exists w'. repeat split; assumption.
Defined.

(** * Beyond the claims *)

(** ** stop_all_action *)

Lemma stop_action_enter (E : Engine) (s : Slot) (mw : MainWindow) :
  stop_action (enter s mw) =
  Ok tt (enter (stop_slot s)
           (mkMainWindow (_controls mw) (_timer mw) (mw_desktop mw)
              (mw_next_media_id mw)
              (mw_log mw ++ [Vlc_stop; Button_setText "Play"]))).
Proof.
  destruct s, mw. unfold enter, stop_slot. run. flatten_log. reflexivity.
Qed.

Lemma for_controls_stop (E : Engine) (todo : list Slot) :
  forall (done : list Slot) (mw : MainWindow),
    _controls mw = done ++ todo ->
    for_controls stop_action done todo mw =
    inr (mkMainWindow (done ++ map stop_slot todo) (_timer mw)
           (mw_desktop mw) (mw_next_media_id mw)
           (mw_log mw
              ++ flat_map (fun _ => [Vlc_stop; Button_setText "Play"]) todo)).
Proof.
  induction todo as [|s rest IH]; intros done mw Hcontrols.
  - cbn. rewrite app_nil_r in *. destruct mw. cbn in *.
    subst. rewrite app_nil_r. reflexivity.
  - cbn [for_controls]. rewrite stop_action_enter, slot_of_enter.
    rewrite (IH (done ++ [stop_slot s])).
    + cbn. rewrite <- !app_assoc. reflexivity.
    + cbn. rewrite <- app_assoc. reflexivity.
Qed.

(** X1: [stop_all_action] never raises and visits every control, in
    order: each player is stopped and each label reads "Play", whether
    the slot has a media or not.  No slot loses its media or its Python
    attributes, no window is touched (so none is hidden), and the timer
    is left as it was: it keeps running after a stop. *)
Theorem stop_all_action_spec (E : Engine) (mw : MainWindow) :
  exists mw',
    stop_all_action mw = inr mw' /\
    _timer mw' = _timer mw /\
    mw_log mw' = mw_log mw
      ++ flat_map (fun _ => [Vlc_stop; Button_setText "Play"]) (_controls mw) /\
    List.length (_controls mw') = List.length (_controls mw) /\
    forall i s, nth_error (_controls mw) i = Some s ->
      exists s',
        nth_error (_controls mw') i = Some s' /\
        _play_pause_button (slot_panel s') = "Play" /\
        slot_vlc s' = stop (slot_vlc s) /\
        slot_pw s' = slot_pw s /\
        slot_win s' = slot_win s.
Proof.
  eexists. split; [apply (for_controls_stop E _ [] mw eq_refl)|].
  cbn. split; [reflexivity|]. split; [reflexivity|].
  split; [apply length_map|].
  intros i s Hi. exists (stop_slot s).
  split; [apply map_nth_error; exact Hi|].
  repeat split; reflexivity.
Qed.

(** ** play_pause_all_action *)

Lemma play_pause_action_enter (E : Engine) (s : Slot) (mw : MainWindow) :
  exists calls,
    play_pause_action (enter s mw) =
    Ok tt (enter (play_pause_slot s)
             (mkMainWindow (_controls mw) (_timer mw || play_pause_starts s)
                (mw_desktop mw) (mw_next_media_id mw) (mw_log mw ++ calls))).
Proof.
  destruct s as [p q c v], mw as [cs t d n l].
  unfold enter, play_pause_slot, play_pause_starts. cbn.
  destruct q as [qx qy qw qh qf qm hidden full title].
  run. destruct (is_playing v).
  - eexists. run. flatten_log. cbn. rewrite orb_false_r. reflexivity.
  - run. destruct (fst (play v) =? -1).
    + eexists. flatten_log. cbn. rewrite orb_false_r. reflexivity.
    + destruct hidden; eexists; run; flatten_log; cbn;
        rewrite orb_true_r; reflexivity.
Qed.

Lemma for_controls_play_pause (E : Engine) (todo : list Slot) :
  forall (done : list Slot) (mw : MainWindow),
    _controls mw = done ++ todo ->
    exists calls,
      for_controls play_pause_action done todo mw =
      inr (mkMainWindow (done ++ map play_pause_slot todo)
             (_timer mw || existsb play_pause_starts todo)
             (mw_desktop mw) (mw_next_media_id mw) (mw_log mw ++ calls)).
Proof.
  induction todo as [|s rest IH]; intros done mw Hcontrols.
  - exists []. cbn. rewrite app_nil_r in *. destruct mw. cbn in *.
    subst. rewrite app_nil_r, orb_false_r. reflexivity.
  - destruct (play_pause_action_enter E s mw) as [calls1 Hrun].
    cbn [for_controls]. rewrite Hrun, slot_of_enter.
    edestruct (IH (done ++ [play_pause_slot s])) as [calls2 Hrest];
      [|rewrite Hrest].
    + cbn. rewrite <- app_assoc. reflexivity.
    + exists (calls1 ++ calls2). cbn.
      rewrite <- !app_assoc, orb_assoc. reflexivity.
Qed.

(** What [play_pause_slot] means for the user of one slot. *)
Lemma play_pause_slot_cases (E : Engine) (s : Slot) :
  slot_pw (play_pause_slot s) = slot_pw s /\
  (is_playing (slot_vlc s) = true ->
     _play_pause_button (slot_panel (play_pause_slot s)) = "Play" /\
     slot_vlc (play_pause_slot s) = pause (slot_vlc s) /\
     slot_win (play_pause_slot s) = slot_win s) /\
  (is_playing (slot_vlc s) = false -> fst (play (slot_vlc s)) = -1 ->
     slot_panel (play_pause_slot s) = slot_panel s /\
     slot_win (play_pause_slot s) = slot_win s) /\
  (is_playing (slot_vlc s) = false -> fst (play (slot_vlc s)) <> -1 ->
     _play_pause_button (slot_panel (play_pause_slot s)) = "Pause" /\
     isHidden (slot_win (play_pause_slot s)) = false).
Proof.
  unfold play_pause_slot.
  destruct (is_playing (slot_vlc s)); [|destruct (Z.eqb_spec (fst (play (slot_vlc s))) (-1))];
    cbn; repeat split; try reflexivity; try discriminate; try congruence.
  destruct (isHidden (slot_win s)) eqn:Hh; [reflexivity|exact Hh].
Qed.

(** X2: [play_pause_all_action] never raises and visits every control,
    in order, each slot on its own: a playing slot is paused and reads
    "Play"; a slot whose player refuses to play (a slot without a media,
    with the real engine) keeps its window and its panel and does not stop
    the loop; a slot whose player accepts is shown and reads "Pause".
    Afterwards the timer runs if it ran before or if some slot started. *)
Theorem play_pause_all_action_spec (E : Engine) (mw : MainWindow) :
  exists mw',
    play_pause_all_action mw = inr mw' /\
    _timer mw' = (_timer mw || existsb play_pause_starts (_controls mw))%bool /\
    List.length (_controls mw') = List.length (_controls mw) /\
    forall i s, nth_error (_controls mw) i = Some s ->
      exists s',
        nth_error (_controls mw') i = Some s' /\
        slot_pw s' = slot_pw s /\
        (is_playing (slot_vlc s) = true ->
           _play_pause_button (slot_panel s') = "Play" /\
           slot_vlc s' = pause (slot_vlc s) /\
           slot_win s' = slot_win s) /\
        (is_playing (slot_vlc s) = false -> fst (play (slot_vlc s)) = -1 ->
           slot_panel s' = slot_panel s /\ slot_win s' = slot_win s) /\
        (is_playing (slot_vlc s) = false -> fst (play (slot_vlc s)) <> -1 ->
           _play_pause_button (slot_panel s') = "Pause" /\
           isHidden (slot_win s') = false).
Proof.
  destruct (for_controls_play_pause E (_controls mw) [] mw eq_refl)
    as [calls Hrun].
  eexists. split; [exact Hrun|]. cbn.
  split; [reflexivity|]. split; [apply length_map|].
  intros i s Hi. exists (play_pause_slot s).
  split; [apply map_nth_error; exact Hi|].
  apply play_pause_slot_cases.
Qed.

(** ** Returning without an exception *)

Lemma open_action_returns (E : Engine) (w : World) (filename : string) :
  exists w', open_action filename w = Ok tt w'.
Proof. open_world w. branches; eexists; reflexivity. Qed.

Lemma play_pause_action_returns (E : Engine) (w : World) :
  exists w', play_pause_action w = Ok tt w'.
Proof. open_world w. branches; eexists; reflexivity. Qed.

Lemma stop_action_returns (E : Engine) (w : World) :
  exists w', stop_action w = Ok tt w'.
Proof. open_world w. branches; eexists; reflexivity. Qed.

Lemma set_volume_action_returns (E : Engine) (w : World) (v : Z) :
  exists w', set_volume_action v w = Ok tt w'.
Proof. open_world w. branches; eexists; reflexivity. Qed.

Lemma set_position_action_returns (E : Engine) (w : World) :
  exists w', set_position_action w = Ok tt w'.
Proof. open_world w. branches; eexists; reflexivity. Qed.

Lemma toggle_fullscreen_action_none (E : Engine) (w : World) :
  _media (pw w) = None -> toggle_fullscreen_action w = Ok tt w.
Proof.
  intros Hm. open_world w. subst. run. reflexivity.
Qed.

Lemma toggle_fullscreen_action_returns (E : Engine) (w : World) :
  wf w = true -> exists w', toggle_fullscreen_action w = Ok tt w'.
Proof.
  intros Hwf. destruct (_media (pw w)) as [m|] eqn:Hm.
  - destruct (_is_fullscreen (pw w)) eqn:Hfs.
    + destruct (wf_saved_geometry E w Hwf Hfs)
        as (sx & sy & sw & sh & sf & sm & Hx & Hy & Hw & Hh & Hf & Hmg).
      eexists.
      apply (toggle_fullscreen_leaves E w m sx sy sw sh sf sm
               Hm Hfs Hx Hy Hw Hh Hf Hmg).
    + eexists. apply (toggle_fullscreen_windowed E w m Hm Hfs).
  - exists w. apply toggle_fullscreen_action_none. exact Hm.
Qed.

(** In a well-formed state [close_action] returns, and the slot it
    leaves has no media and is not fullscreen. *)
Lemma close_action_returns (E : Engine) (w : World) :
  wf w = true ->
  exists w',
    close_action w = Ok tt w' /\
    _media (pw w') = None /\
    (_media (pw w) <> None -> _is_fullscreen (pw w') = false).
Proof.
  intros Hwf. destruct (_media (pw w)) as [m|] eqn:Hm.
  - rewrite (close_action_some E w m Hm).
    destruct (_is_fullscreen (pw w)) eqn:Hfs.
    + destruct (wf_saved_geometry E w Hwf Hfs)
        as (sx & sy & sw & sh & sf & sm & Hx & Hy & Hw & Hh & Hf & Hmg).
      unfold bind at 1.
      rewrite (toggle_fullscreen_leaves E w m sx sy sw sh sf sm
                 Hm Hfs Hx Hy Hw Hh Hf Hmg).
      open_world w. subst. eexists. split; [run; reflexivity|].
      split; reflexivity.
    + open_world w. subst. eexists. split; [run; reflexivity|].
      split; reflexivity.
  - exists w. split; [apply close_action_none; exact Hm|].
    split; [exact Hm|]. intros Hne. congruence.
Qed.

(** X3: in a reachable state no action of the user ends in an exception:
    the toggle and [close_action] find the saved geometry whenever they
    read it, and the other methods have nothing that can fail.  The
    invariant is what protects the toggle: on a slot that carries the
    fullscreen flag with nothing saved it raises [TypeError]. *)
Theorem reachable_no_exception (E : Engine) (q : QWidget) (p : player)
        (d : QDesktop) (screen_num : Z) (w : World)
        (filename : string) (v : Z) :
  reachable (World_init q p d screen_num) w ->
  (exists w', toggle_fullscreen_action w = Ok tt w') /\
  (exists w', close_action w = Ok tt w') /\
  (exists w', open_action filename w = Ok tt w') /\
  (exists w', play_pause_action w = Ok tt w') /\
  (exists w', stop_action w = Ok tt w') /\
  (exists w', set_volume_action v w = Ok tt w') /\
  (exists w', set_position_action w = Ok tt w') /\
  (exists w',
     toggle_fullscreen_action
       (on_pw (fun a => put_is_fullscreen true
                          (put_media (Some (mkMedia 0 filename)) a))
              (World_init q p d screen_num))
     = Raise TypeError w').
Proof.
  intros Hreach.
  pose proof (reachable_wf E q p d screen_num w Hreach) as Hwf.
  split; [apply toggle_fullscreen_action_returns; exact Hwf|].
  split.
  { destruct (close_action_returns E w Hwf) as (w' & Hrun & _).
    exists w'. exact Hrun. }
  split; [apply open_action_returns|].
  split; [apply play_pause_action_returns|].
  split; [apply stop_action_returns|].
  split; [apply set_volume_action_returns|].
  split; [apply set_position_action_returns|].
  eexists. destruct q. unfold World_init, enter, MainWindow_init, Slot_init,
    PlayerWindow_init, ControlPanel_init. run. reflexivity.
Qed.

Lemma w_fullscreen_reachable : reachable w_start w_fullscreen.
Proof.
  apply (reachable_step _ w_opened).
  - apply (reachable_step _ w_start).
    + apply reachable_init.
    + apply (step_open "a.mp4" w_start).
  - apply (step_toggle_fullscreen w_opened).
Qed.

Lemma reachable_no_exception_witness :
  (exists w', toggle_fullscreen_action w_fullscreen = Ok tt w') /\
  (exists w', close_action w_fullscreen = Ok tt w').
Proof.
  destruct (reachable_no_exception simple_engine sample_widget sample_player
              sample_desktop 1 w_fullscreen "b.mp4" 40 w_fullscreen_reachable)
    as (Htoggle & Hclose & _).
  split; assumption.
Defined.

(** ** Closing twice, closing a fullscreen window *)

(** X4: [close_action] and [release_media] are idempotent: in a
    well-formed state a first [close_action] returns, and a second one,
    or a [release_media], returns in the very same world, without a call
    to the toolkit or the player. *)
Theorem close_action_idempotent (E : Engine) (w : World) :
  wf w = true ->
  exists w1,
    close_action w = Ok tt w1 /\
    close_action w1 = Ok tt w1 /\
    release_media w1 = Ok tt w1 /\
    toggle_fullscreen_action w1 = Ok tt w1.
Proof.
  intros Hwf. destruct (close_action_returns E w Hwf) as (w1 & Hrun & Hm & _).
  exists w1. split; [exact Hrun|].
  split; [apply close_action_none; exact Hm|].
  split; [apply release_media_none; exact Hm|].
  apply toggle_fullscreen_action_none; exact Hm.
Qed.

Lemma close_action_idempotent_witness :
  exists w1,
    close_action w_fullscreen = Ok tt w1 /\
    close_action w1 = Ok tt w1.
Proof.
  assert (Hwf : wf w_fullscreen = true) by (vm_compute; reflexivity).
  destruct (close_action_idempotent simple_engine w_fullscreen Hwf)
    as (w1 & H1 & H2 & _).
  exists w1. split; assumption.
Defined.

(** X5: closing a fullscreen window puts the windowed geometry back
    before it hides the window.  From a windowed slot with a media, the
    toggle followed by [close_action] leaves a hidden, non-fullscreen
    window with the position, size, flags and margins it had before the
    toggle, and a slot without a media whose flag is cleared. *)
Theorem toggle_then_close_restores (E : Engine) (w : World) (m : Media) :
  _media (pw w) = Some m ->
  _is_fullscreen (pw w) = false ->
  exists w1 w2,
    toggle_fullscreen_action w = Ok tt w1 /\
    close_action w1 = Ok tt w2 /\
    (x (win w2), y (win w2), width (win w2), height (win w2))
      = (x (win w), y (win w), width (win w), height (win w)) /\
    windowFlags (win w2) = windowFlags (win w) /\
    contentsMargins (win w2) = contentsMargins (win w) /\
    isHidden (win w2) = true /\
    isFullScreen (win w2) = false /\
    _is_fullscreen (pw w2) = false /\
    _media (pw w2) = None.
Proof.
  intros Hm Hfs.
  pose proof (toggle_fullscreen_windowed E w m Hm Hfs) as Hrun.
  cbv zeta in Hrun.
  open_world w. subst. destruct contentsMargins0.
  eexists. eexists. split; [exact Hrun|].
  split; [run; reflexivity|].
  unfold width, height. cbn -[Z.max].
  repeat split; try reflexivity.
  rewrite !Z.max_assoc, !Z.max_id. reflexivity.
Qed.

Lemma toggle_then_close_restores_witness :
  exists w1 w2,
    toggle_fullscreen_action w_opened = Ok tt w1 /\
    close_action w1 = Ok tt w2 /\
    (x (win w2), y (win w2), width (win w2), height (win w2))
      = (100, 80, 640, 480) /\
    isHidden (win w2) = true.
Proof.
  destruct (toggle_then_close_restores simple_engine w_opened
              (mkMedia 0 "a.mp4") eq_refl eq_refl)
    as (w1 & w2 & H1 & H2 & Hgeo & _ & _ & Hhidden & _).
  exists w1, w2. repeat split; assumption.
Defined.

(** ** What the methods keep *)

(** X6: every method, however it ends, keeps the Python flag and the Qt
    window state in step: if [_is_fullscreen] says what [isFullScreen()]
    is before the call, it does so after it. *)
Theorem flag_agrees_kept (E : Engine) (w : World) (filename : string) (v : Z) :
  flag_agrees w ->
  flag_agrees (world_of (toggle_fullscreen_action w)) /\
  flag_agrees (world_of (close_action w)) /\
  flag_agrees (world_of (open_action filename w)) /\
  flag_agrees (world_of (play_pause_action w)) /\
  flag_agrees (world_of (stop_action w)) /\
  flag_agrees (world_of (set_volume_action v w)) /\
  flag_agrees (world_of (set_position_action w)) /\
  flag_agrees (world_of (update_ui w)).
Proof.
  unfold flag_agrees. intros H. open_world w. subst.
  repeat split; branches; reflexivity.
Qed.

Lemma flag_agrees_kept_witness :
  flag_agrees (world_of (toggle_fullscreen_action w_fullscreen)) /\
  flag_agrees (world_of (close_action w_fullscreen)).
Proof.
  assert (H : flag_agrees w_fullscreen) by (vm_compute; reflexivity).
  destruct (flag_agrees_kept simple_engine w_fullscreen "b.mp4" 40 H)
    as (Htoggle & Hclose & _).
  split; assumption.
Defined.

(** X7: no method leaves the refresh timer stopped: when the timer runs
    before a call it runs after it, for every method and however the
    call ends.  [stop_action] and [close_action] in particular do not
    stop it, and [set_position_action] starts it again. *)
Theorem timer_never_stopped (E : Engine) (w : World) (filename : string)
        (v : Z) :
  timer_active w = true ->
  timer_active (world_of (toggle_fullscreen_action w)) = true /\
  timer_active (world_of (close_action w)) = true /\
  timer_active (world_of (open_action filename w)) = true /\
  timer_active (world_of (play_pause_action w)) = true /\
  timer_active (world_of (stop_action w)) = true /\
  timer_active (world_of (set_volume_action v w)) = true /\
  timer_active (world_of (set_position_action w)) = true /\
  timer_active (world_of (update_ui w)) = true.
Proof.
  intros H. open_world w. subst.
  repeat split; branches; reflexivity.
Qed.

Lemma timer_never_stopped_witness :
  timer_active (world_of (stop_action (with_timer true w_opened))) = true /\
  timer_active (world_of (close_action (with_timer true w_opened))) = true /\
  timer_active (world_of (set_position_action (with_timer true w_opened)))
    = true.
Proof.
  destruct (timer_never_stopped simple_engine (with_timer true w_opened)
              "b.mp4" 40 eq_refl)
    as (_ & Hclose & _ & _ & Hstop & _ & Hseek & _).
  repeat split; assumption.
Defined.

(** ** Seeking *)

Lemma slider_values_spec (p : Z) :
  0 <= p <= 1000 -> In p slider_values.
Proof.
  intros Hp. unfold slider_values.
  replace p with (Z.of_nat (Z.to_nat p)) by lia.
  apply in_map. apply in_seq. lia.
Qed.

(** Every slider value, checked by evaluation: the seek target lies in
    [0, 1], is below the target of every larger value, and comes back as
    the value under [int(target * 1000)]. *)
Lemma slider_values_checked :
  forallb
    (fun p =>
       PrimFloat.leb 0%float (seek_target p)
       && PrimFloat.leb (seek_target p) 1%float
       && forallb (fun p' => negb (p <? p')
                             || PrimFloat.ltb (seek_target p) (seek_target p'))
                  slider_values
       && match py_int (PrimFloat.mul (seek_target p) (float_of_int 1000)) with
          | inr n => n =? p
          | inl _ => false
          end)
    slider_values = true.
Proof. vm_compute. reflexivity. Qed.

Lemma seek_target_facts (p : Z) :
  0 <= p <= 1000 ->
  PrimFloat.leb 0%float (seek_target p) = true /\
  PrimFloat.leb (seek_target p) 1%float = true /\
  (forall p', p < p' <= 1000 ->
     PrimFloat.ltb (seek_target p) (seek_target p') = true) /\
  py_int (PrimFloat.mul (seek_target p) (float_of_int 1000)) = inr p.
Proof.
  intros Hp.
  pose proof (proj1 (forallb_forall _ _) slider_values_checked p
                (slider_values_spec p Hp)) as H.
  cbv beta in H.
  apply andb_prop in H. destruct H as [H Hint].
  apply andb_prop in H. destruct H as [H Hlt].
  apply andb_prop in H. destruct H as [H0 H1].
  split; [exact H0|]. split; [exact H1|]. split.
  - intros p' Hp'.
    pose proof (proj1 (forallb_forall _ _) Hlt p'
                  (slider_values_spec p' ltac:(lia))) as Hp2.
    cbv beta in Hp2.
    destruct (Z.ltb_spec p p') as [_|Hge]; [exact Hp2|lia].
  - destruct (py_int (PrimFloat.mul (seek_target p) (float_of_int 1000)))
      as [e|n]; [discriminate|].
    apply Z.eqb_eq in Hint. subst. reflexivity.
Qed.

Lemma set_position_action_some (E : Engine) (w : World) (m : Media) :
  _media (pw w) = Some m ->
  set_position_action w =
  Ok tt (logged [Timer_stop; PositionSlider_value;
                 Vlc_set_position (seek_target (_position_slider (panel w)));
                 Timer_start]
           (with_timer true
              (on_vlc (set_position (seek_target (_position_slider (panel w))))
                      w))).
Proof.
  intros Hm. unfold seek_target. open_world w. subst.
  run. flatten_log. reflexivity.
Qed.

(** X8: for a slider value in 0..1000 the position [set_position_action]
    hands to the player is a normalized one: it lies in [0.0, 1.0], it is
    0.0 at value 0 and 1.0 at value 1000, and a larger slider value would
    give a strictly larger position. *)
Theorem set_position_action_normalized (E : Engine) (w : World) (m : Media) :
  _media (pw w) = Some m ->
  0 <= _position_slider (panel w) <= 1000 ->
  exists target w',
    set_position_action w = Ok tt w' /\
    vlc w' = set_position target (vlc w) /\
    target = PrimFloat.div (float_of_int (_position_slider (panel w)))
                           1000%float /\
    PrimFloat.leb 0%float target = true /\
    PrimFloat.leb target 1%float = true /\
    (_position_slider (panel w) = 0 -> target = 0%float) /\
    (_position_slider (panel w) = 1000 -> target = 1%float) /\
    (forall p', _position_slider (panel w) < p' <= 1000 ->
       PrimFloat.ltb target
         (PrimFloat.div (float_of_int p') 1000%float) = true).
Proof.
  intros Hm Hp.
  exists (seek_target (_position_slider (panel w))). eexists.
  split; [apply (set_position_action_some E w m Hm)|].
  split; [reflexivity|]. split; [reflexivity|].
  destruct (seek_target_facts _ Hp) as (H0 & H1 & Hlt & _).
  split; [exact H0|]. split; [exact H1|].
  split; [intros ->; reflexivity|]. split; [intros ->; reflexivity|].
  exact Hlt.
Qed.

Lemma set_position_action_normalized_witness :
  exists target w',
    set_position_action w_seek = Ok tt w' /\
    vlc w' = set_position target (vlc w_seek) /\
    PrimFloat.leb 0%float target = true /\
    PrimFloat.leb target 1%float = true.
Proof.
  assert (Hp : 0 <= _position_slider (panel w_seek) <= 1000)
    by (vm_compute; split; discriminate).
  destruct (set_position_action_normalized simple_engine w_seek
              (mkMedia 0 "a.mp4") eq_refl Hp)
    as (t & w' & Hrun & Hvlc & _ & H0 & H1 & _).
  exists t, w'. repeat split; assumption.
Defined.

(** ** What a refresh touches *)


(** ** The volume chosen before a file is opened *)

Lemma slider_bound_idempotent (v : Z) :
  slider_bound 0 (slider_bound 0 v 100) 100 = slider_bound 0 v 100.
Proof. unfold slider_bound. lia. Qed.

(** X11: a volume chosen while the slot has no media is cached and shown
    by the slider, and that is all.  When the user drags the volume
    slider and then opens a file, [open_action] calls
    [setValue(self._volume)] on a slider that already shows that value,
    so no [valueChanged] is emitted and no [audio_set_volume] reaches the
    player: after the open the player has been told its media and nothing
    else. *)
Theorem volume_before_open_not_applied (E : Engine) (w : World) (v : Z)
        (filename : string) :
  wf w = true ->
  _media (pw w) = None ->
  filename <> "" ->
  let m := mkMedia (next_media_id w) filename in
  let shown := slider_bound 0 v 100 in
  exists w1 w2,
    volume_slider_moved v w = Ok tt w1 /\
    vlc w1 = vlc w /\ log w1 = log w /\
    open_action filename w1 = Ok tt w2 /\
    _volume (pw w2) = shown /\
    _volume_slider (panel w2) = shown /\
    _media (pw w2) = Some m /\
    vlc w2 = set_media (Some m) (vlc w) /\
    log w2 = log w ++
      [QFileDialog_getOpenFileName; Vlc_media_new filename;
       Vlc_set_media (Some m); Vlc_parse m; VolumeSlider_setValue shown;
       Vlc_get_meta m; Self_setWindowTitle (get_meta m 0); Self_show].
Proof.
  intros Hwf Hm Hne m shown. subst m shown.
  destruct (wf_parts E w Hwf) as (_ & Hslider & Hrange).
  apply String.eqb_neq in Hne.
  pose proof (slider_bound_idempotent v) as Hidem.
  clear Hwf. open_world w. subst.
  pose proof (slider_bound_inside 0 _ 100 Hrange) as Hinside.
  destruct (Z.eqb_spec (slider_bound 0 v 100) _volume0) as [Heq|Hneq].
  - eexists. eexists.
    split; [run; reflexivity|].
    split; [reflexivity|]. split; [reflexivity|].
    split.
    + run. rewrite Hne. rewrite Hinside, Z.eqb_refl.
      flatten_log. reflexivity.
    + cbn. rewrite Heq. repeat split; reflexivity.
  - eexists. eexists.
    split; [run; reflexivity|].
    split; [reflexivity|]. split; [reflexivity|].
    split.
    + run. rewrite Hne. rewrite Hidem, Z.eqb_refl.
      flatten_log. reflexivity.
    + cbn. repeat split; reflexivity.
Qed.

Lemma volume_before_open_not_applied_witness :
  exists w1 w2,
    volume_slider_moved 30 w_start = Ok tt w1 /\
    open_action "a.mp4" w1 = Ok tt w2 /\
    _volume (pw w2) = 30 /\
    _volume_slider (panel w2) = 30 /\
    audio_get_volume (vlc w2) = 100.
Proof.
  assert (Hne : "a.mp4" <> "") by discriminate.
  destruct (volume_before_open_not_applied simple_engine w_start 30 "a.mp4"
              eq_refl eq_refl Hne)
    as (w1 & w2 & H1 & _ & _ & H2 & Hvol & Hslider & _ & Hvlc & _).
  exists w1, w2.
  split; [exact H1|]. split; [exact H2|].
  split; [exact Hvol|]. split; [exact Hslider|].
  rewrite Hvlc. reflexivity.
Defined.

(** ** Which display each panel covers *)

(** The screen the toggle asks for is [fullscreen_target]. *)
Lemma toggle_fullscreen_target (E : Engine) (w : World) (m : Media) :
  _media (pw w) = Some m ->
  _is_fullscreen (pw w) = false ->
  exists w',
    toggle_fullscreen_action w = Ok tt w' /\
    (x (win w'), y (win w'), width (win w'), height (win w')) =
    (let g := screenGeometry (desktop w)
                (fullscreen_target (desktop w) (_screen_num (panel w))) in
     (rect_x g, rect_y g, Z.max minimumWidth (rect_width g),
      Z.max minimumHeight (rect_height g))).
Proof.
  intros Hm Hfs. eexists.
  split; [apply (toggle_fullscreen_windowed E w m Hm Hfs)|]. reflexivity.
Qed.

(** X12: the main window creates [MAX_DISPLAYS] panels numbered 1..4, and
    panel k goes fullscreen on screen k when that screen exists and on
    screen 0 otherwise.  So with four screens or more the four panels
    cover four different screens (with exactly four: 1, 2, 3 and, for
    panel 4, screen 0); with three screens or fewer panels 3 and 4 both
    cover screen 0, and with a single screen all four do. *)
Theorem initial_controls_fullscreen_targets (E : Engine) (q : QWidget)
        (p : player) (d : QDesktop) :
  let targets :=
    map (fun s => fullscreen_target d (_screen_num (slot_panel s)))
        (_controls (MainWindow_init q p d)) in
  map (fun s => _screen_num (slot_panel s)) (_controls (MainWindow_init q p d))
    = [1; 2; 3; 4] /\
  (4 <= screenCount d -> NoDup targets) /\
  (screenCount d = 4 -> targets = [1; 2; 3; 0]) /\
  (screenCount d <= 3 -> ~ NoDup targets /\ nth 2 targets 0 = 0
                         /\ nth 3 targets 0 = 0) /\
  (screenCount d <= 1 -> targets = [0; 0; 0; 0]).
Proof.
  cbn. unfold fullscreen_target.
  split; [reflexivity|].
  destruct (Z.ltb_spec 1 (screenCount d)), (Z.ltb_spec 2 (screenCount d)),
    (Z.ltb_spec 3 (screenCount d)), (Z.ltb_spec 4 (screenCount d));
    try lia;
    (split; [intros Hc; try lia;
             repeat (constructor; [cbn; intuition lia|]); constructor|]);
    (split; [intros Hc; try lia; reflexivity|]);
    (split; [intros Hc; try lia|intros Hc; try lia; reflexivity]).
  all: split; [|split; reflexivity].
  all: intros Hnd; inversion Hnd as [|a l _ Hnd1]; subst;
    inversion Hnd1 as [|b l1 _ Hnd2]; subst;
    inversion Hnd2 as [|c l2 Hin _]; subst; apply Hin; left; reflexivity.
Qed.

(** ** A fullscreen slot has a media *)

Lemma step_media_when_fullscreen (E : Engine) (w w' : World) :
  step w w' -> media_when_fullscreen w -> media_when_fullscreen w'.
Proof.
  unfold media_when_fullscreen.
  intros Hstep.
  destruct Hstep as [v w|w|v w|w|filename w|w|w|w|w|w|w w' Hpw _ _].
  1-10: intros H; open_world w; destruct _media0, _is_fullscreen0;
    branches; cbn; intros Hfs; try discriminate; auto.
  rewrite Hpw. auto.
Qed.

(** X13: in every reachable state a slot whose fullscreen flag is set has
    a media: only the toggle sets the flag, it does so only with a media,
    and the two methods that drop the media either clear the flag first
    ([close_action]) or store a new media at once ([open_action]). *)
Theorem reachable_fullscreen_has_media (E : Engine) (q : QWidget)
        (p : player) (d : QDesktop) (screen_num : Z) (w : World) :
  reachable (World_init q p d screen_num) w ->
  _is_fullscreen (pw w) = true ->
  exists m, _media (pw w) = Some m.
Proof.
  intros Hreach.
  assert (H : media_when_fullscreen w).
  { induction Hreach as [|w w' _ IH Hstep].
    - intros Hfs. discriminate.
    - apply (step_media_when_fullscreen E w w' Hstep IH). }
  intros Hfs. specialize (H Hfs).
  destruct (_media (pw w)) as [m|]; [exists m; reflexivity|congruence].
Qed.

Lemma reachable_fullscreen_has_media_witness :
  exists m, _media (pw w_fullscreen) = Some m.
Proof.
  assert (Hfs : _is_fullscreen (pw w_fullscreen) = true)
    by (vm_compute; reflexivity).
  exact (reachable_fullscreen_has_media simple_engine sample_widget
           sample_player sample_desktop 1 w_fullscreen
           w_fullscreen_reachable Hfs).
Defined.

(** ** The cached volume *)

(** X14: in every reachable state the volume slider shows the cached
    volume, the cached volume lies in 0..100, and the media of the slot,
    when there is one, is an object that was allocated. *)
Theorem reachable_volume_cached (E : Engine) (q : QWidget) (p : player)
        (d : QDesktop) (screen_num : Z) (w : World) :
  reachable (World_init q p d screen_num) w ->
  _volume_slider (panel w) = _volume (pw w) /\
  0 <= _volume (pw w) <= 100 /\
  (forall m, _media (pw w) = Some m -> (media_id m < next_media_id w)%nat).
Proof.
  intros Hreach.
  destruct (wf_parts E w (reachable_wf E q p d screen_num w Hreach))
    as (Hmedia & Hslider & Hrange).
  split; [exact Hslider|]. split; [exact Hrange|exact Hmedia].
Qed.

Lemma reachable_volume_cached_witness :
  _volume_slider (panel w_fullscreen) = _volume (pw w_fullscreen) /\
  0 <= _volume (pw w_fullscreen) <= 100.
Proof.
  destruct (reachable_volume_cached simple_engine sample_widget sample_player
              sample_desktop 1 w_fullscreen w_fullscreen_reachable)
    as (Hslider & Hrange & _).
  split; assumption.
Defined.

(** ** Who moves the window *)

(** X15: only the fullscreen toggle (and [close_action] through it) moves,
    resizes or restyles the window.  [open_action], [play_pause_action],
    [stop_action], [set_volume_action], [set_position_action] and
    [update_ui] leave its position, size, flags, margins and fullscreen
    state as they were, however they end; so does [close_action] on a
    windowed slot.  A file opened while the window is fullscreen leaves
    it fullscreen. *)
Theorem window_geometry_frame (E : Engine) (w : World) :
  (forall filename,
     window_geometry (world_of (open_action filename w)) = window_geometry w) /\
  window_geometry (world_of (play_pause_action w)) = window_geometry w /\
  window_geometry (world_of (stop_action w)) = window_geometry w /\
  (forall v,
     window_geometry (world_of (set_volume_action v w)) = window_geometry w) /\
  window_geometry (world_of (set_position_action w)) = window_geometry w /\
  window_geometry (world_of (update_ui w)) = window_geometry w /\
  (_is_fullscreen (pw w) = false ->
   window_geometry (world_of (close_action w)) = window_geometry w).
Proof.
  unfold window_geometry. open_world w.
  split; [intros filename; branches; reflexivity|].
  split; [branches; reflexivity|].
  split; [branches; reflexivity|].
  split; [intros v; branches; reflexivity|].
  split; [branches; reflexivity|].
  split; [branches; reflexivity|].
  intros ->. branches; reflexivity.
Qed.
